(** * The CLAUDE.md validator (validate-claude-md.py), embedded and verified

    The development follows
    [src/remote-claude/SKILLS/claude-md-creator/scripts/validate-claude-md.py].

    Conventions of the embedding.
    - A Python [str] is a [string]; its characters are [ascii] values read as
      the code points U+0000..U+00FF.  The character classes below
      ([isspace], [isword], [lower]) are the ones Python uses on that range.
    - The shared [issues] list that every validator appends to is threaded
      explicitly: a validator takes the list and returns the extended list.
    - [pathlib.Path] is modelled for POSIX; the file system and the home
      directory form a [world] the functions read from.
    - [validate_file] returns the result dictionary together with the return
      code, or records that an exception left the function: the program has
      no [try], so what [read_text] or [exists] raises ends the run.  [main]
      hands the return code to [sys.exit], so it is the exit status of the
      process.  The printing of the report (JSON text or the human-readable
      lines) is not modelled. *)

From Stdlib Require Import List Arith Bool Lia.
From Stdlib Require Import Strings.String Strings.Ascii.
From Stdlib Require Import Numbers.DecimalString Numbers.DecimalNat Init.Decimal.
Import ListNotations.
Open Scope string_scope.
Open Scope nat_scope.

(** ** Python strings *)

Module PyStr.

Definition newline : ascii := "010"%char.

(** [str.isspace] on U+0000..U+00FF: TAB..CR, FS..US, space, NEL, NBSP. *)
Definition isspace (c : ascii) : bool :=
  let n := nat_of_ascii c in
  ((9 <=? n) && (n <=? 13)) || ((28 <=? n) && (n <=? 32))
  || (n =? 133) || (n =? 160).

Definition isdigit (c : ascii) : bool :=
  let n := nat_of_ascii c in (48 <=? n) && (n <=? 57).

(** The class [\w] of [re] on [str] patterns, on U+0000..U+00FF:
    [str.isalnum] or the underscore. *)
Definition isword (c : ascii) : bool :=
  let n := nat_of_ascii c in
  isdigit c || ((65 <=? n) && (n <=? 90)) || ((97 <=? n) && (n <=? 122))
  || (n =? 95)
  || (n =? 170) || (n =? 178) || (n =? 179) || (n =? 181) || (n =? 185)
  || (n =? 186) || ((188 <=? n) && (n <=? 190))
  || ((192 <=? n) && (n <=? 214)) || ((216 <=? n) && (n <=? 246))
  || ((248 <=? n) && (n <=? 255)).

(** [str.lower] on one character of U+0000..U+00FF. *)
Definition lower_char (c : ascii) : ascii :=
  let n := nat_of_ascii c in
  if ((65 <=? n) && (n <=? 90))
     || ((192 <=? n) && (n <=? 222) && negb (n =? 215))
  then ascii_of_nat (n + 32) else c.

Fixpoint lower (s : string) : string :=
  match s with
  | EmptyString => EmptyString
  | String c s' => String (lower_char c) (lower s')
  end.

(** [s.startswith(p)] *)
Fixpoint startswith (s p : string) {struct p} : bool :=
  match p with
  | EmptyString => true
  | String a p' =>
      match s with
      | EmptyString => false
      | String b s' => Ascii.eqb a b && startswith s' p'
      end
  end.

(** [x in s] *)
Fixpoint contains (s x : string) : bool :=
  startswith s x
  || match s with
     | EmptyString => false
     | String _ s' => contains s' x
     end.

(** [s.count(c)] for a one-character [c] *)
Fixpoint count_char (s : string) (c : ascii) : nat :=
  match s with
  | EmptyString => 0
  | String b s' => (if Ascii.eqb b c then 1 else 0) + count_char s' c
  end.

(** [s.split(sep)] for a one-character [sep]: never the empty list. *)
Fixpoint split_on (sep : ascii) (s : string) : list string :=
  match s with
  | EmptyString => [EmptyString]
  | String c s' =>
      if Ascii.eqb c sep then EmptyString :: split_on sep s'
      else match split_on sep s' with
           | l :: ls => String c l :: ls
           | [] => [String c EmptyString]
           end
  end.

(** [sep.join(ls)] for a one-character [sep] *)
Fixpoint join_with (sep : ascii) (ls : list string) : string :=
  match ls with
  | [] => EmptyString
  | [l] => l
  | l :: ls' => l ++ String sep (join_with sep ls')
  end.

(** [s.split("\n")] and ["\n".join(ls)] *)
Definition split_lines : string -> list string := split_on newline.
Definition join_lines : list string -> string := join_with newline.

Fixpoint lstrip_by (p : ascii -> bool) (s : string) : string :=
  match s with
  | EmptyString => EmptyString
  | String c s' => if p c then lstrip_by p s' else s
  end.

Fixpoint rstrip_by (p : ascii -> bool) (s : string) : string :=
  match s with
  | EmptyString => EmptyString
  | String c s' =>
      match rstrip_by p s' with
      | EmptyString => if p c then EmptyString else String c EmptyString
      | r => String c r
      end
  end.

(** [s.strip()] *)
Definition strip (s : string) : string := rstrip_by isspace (lstrip_by isspace s).

(** [s.strip(chars)] *)
Definition strip_chars (chars s : string) : string :=
  let p := fun c => contains chars (String c EmptyString) in
  rstrip_by p (lstrip_by p s).

(** [str(n)] for a non-negative [int] *)
Definition str_of_nat (n : nat) : string := NilEmpty.string_of_uint (Nat.to_uint n).

(** The first [n] characters. *)
Fixpoint take (n : nat) (s : string) : string :=
  match n, s with
  | S n', String c s' => String c (take n' s')
  | _, _ => EmptyString
  end.

End PyStr.

(** ** The fragment of [re] the validator uses

    A backtracking matcher in continuation-passing style: alternatives are
    tried left to right and [Star] is greedy, as in Python's engine.  [Star]
    runs its body at most [length s] times, which is every iteration that
    consumes a character. *)

Module Re.

Import PyStr.

Inductive regex : Type :=
| Eps
| Sym (p : ascii -> bool)
| Cat (r1 r2 : regex)
| Alt (r1 r2 : regex)
| Star (r : regex).

Definition Plus (r : regex) : regex := Cat r (Star r).
Definition Opt (r : regex) : regex := Alt r Eps.

Fixpoint re_match {A : Type} (r : regex) (s : string) (k : string -> option A)
  : option A :=
  match r with
  | Eps => k s
  | Sym p =>
      match s with
      | String c s' => if p c then k s' else None
      | EmptyString => None
      end
  | Cat r1 r2 => re_match r1 s (fun s' => re_match r2 s' k)
  | Alt r1 r2 =>
      match re_match r1 s k with
      | Some x => Some x
      | None => re_match r2 s k
      end
  | Star r' =>
      (fix loop (n : nat) (s : string) {struct n} : option A :=
         match n with
         | 0 => k s
         | S n' =>
             match re_match r' s (loop n') with
             | Some x => Some x
             | None => k s
             end
         end) (String.length s) s
  end.

(** [re.search(r, s)] as a truth value *)
Fixpoint re_search (r : regex) (s : string) : bool :=
  match re_match r s (fun _ => Some tt) with
  | Some _ => true
  | None =>
      match s with
      | EmptyString => false
      | String _ s' => re_search r s'
      end
  end.

(** [[m.group(0) for m in re.finditer(r, s)]]: leftmost matches, the scan
    resuming where the previous match ended (one character further after an
    empty match). *)
Fixpoint finditer_fuel (fuel : nat) (r : regex) (s : string) : list string :=
  match fuel with
  | 0 => []
  | S fuel' =>
      let skip := match s with
                  | EmptyString => []
                  | String _ s' => finditer_fuel fuel' r s'
                  end in
      match re_match r s (fun rest => Some rest) with
      | Some rest =>
          let m := take (String.length s - String.length rest) s in
          m :: (match m with
                | EmptyString => skip
                | _ => finditer_fuel fuel' r rest
                end)
      | None => skip
      end
  end.

Definition finditer (r : regex) (s : string) : list string :=
  finditer_fuel (S (String.length s)) r s.

(** Pattern building blocks. *)
Definition chr (c : ascii) : regex := Sym (Ascii.eqb c).
Definition chr_ci (c : ascii) : regex :=
  Sym (fun x => Ascii.eqb (lower_char x) (lower_char c)).

Fixpoint lit (s : string) : regex :=
  match s with
  | EmptyString => Eps
  | String c EmptyString => chr c
  | String c s' => Cat (chr c) (lit s')
  end.

(** A literal under [re.IGNORECASE]. *)
Fixpoint lit_ci (s : string) : regex :=
  match s with
  | EmptyString => Eps
  | String c EmptyString => chr_ci c
  | String c s' => Cat (chr_ci c) (lit_ci s')
  end.

Fixpoint alts (rs : list regex) : regex :=
  match rs with
  | [] => Sym (fun _ => false)
  | [r] => r
  | r :: rs' => Alt r (alts rs')
  end.

Fixpoint cats (rs : list regex) : regex :=
  match rs with
  | [] => Eps
  | [r] => r
  | r :: rs' => Cat r (cats rs')
  end.

Definition ws : regex := Sym isspace.                (* \s *)
Definition digit : regex := Sym isdigit.             (* \d *)
Definition word : regex := Sym isword.               (* \w *)
Definition any : regex := Sym (fun c => negb (Ascii.eqb c newline)).  (* . *)

End Re.

(** ** [pathlib.Path] on POSIX, and the world a run reads from *)

Module Pathlib.

Import PyStr.

Record Path : Type := mkPath { root : string; parts : list string }.

Definition slash : ascii := "/"%char.

(** [Path(s)]: empty and ["."] components are dropped; two leading slashes
    (and only two) are kept as the root. *)
Definition parse (s : string) : Path :=
  let r := if startswith s "//" && negb (startswith s "///") then "//"
           else if startswith s "/" then "/" else EmptyString in
  mkPath r (filter (fun c => negb (String.eqb c EmptyString) && negb (String.eqb c "."))
                   (split_on slash s)).

(** [str(p)] *)
Definition str (p : Path) : string :=
  match root p, parts p with
  | EmptyString, [] => "."
  | r, ps => r ++ join_with slash ps
  end.

(** [p.name] *)
Definition name (p : Path) : string := last (parts p) EmptyString.

(** [p / q] *)
Definition joinpath (p q : Path) : Path :=
  match root q with
  | EmptyString => mkPath (root p) (parts p ++ parts q)
  | _ => q
  end.

(** [p == q] *)
Definition path_eqb (p q : Path) : bool :=
  String.eqb (root p) (root q)
  && (fix eqs (a b : list string) : bool :=
        match a, b with
        | [], [] => true
        | x :: a', y :: b' => String.eqb x y && eqs a' b'
        | _, _ => false
        end) (parts p) (parts q).

(** What a path names on disk.  [Unreadable] stands for whatever exists but
    makes [read_text] raise (a directory, a file without read permission,
    bytes that do not decode).  [Inaccessible] stands for a path whose [stat]
    fails with an error that [exists] does not turn into [False] (a name that
    is too long, a directory that may not be searched): there [exists] raises
    [OSError]. *)
Inductive node : Type :=
| Absent
| Inaccessible
| Unreadable
| Readable (text : string).

Record world : Type := mkWorld { home : Path; lookup : Path -> node }.

(** [p.exists()]: [None] when it raises. *)
Definition exists_ (w : world) (p : Path) : option bool :=
  match lookup w p with
  | Absent => Some false
  | Inaccessible => None
  | Unreadable | Readable _ => Some true
  end.

(** [p.read_text()]: [None] when it raises. *)
Definition read_text (w : world) (p : Path) : option string :=
  match lookup w p with
  | Readable t => Some t
  | _ => None
  end.

End Pathlib.

(** ** The validator *)

Module Validator.

Import PyStr Re Pathlib.

(** A dictionary with string keys, as a literal lists its entries. *)
Fixpoint dict_get {V : Type} (d : list (string * V)) (key : string) (default : V) : V :=
  match d with
  | [] => default
  | (k, v) :: d' => if String.eqb k key then v else dict_get d' key default
  end.

Definition LINE_COUNT_TARGETS : list (string * (nat * nat)) :=
  [ ("global", (50, 150)); ("project", (100, 300));
    ("local", (0, 50)); ("rules", (20, 100)) ].

Definition REQUIRED_SECTIONS : list (string * list string) :=
  [ ("global", []); ("project", []); ("local", []); ("rules", ["## Purpose"]) ].

Record ValidationIssue : Type := mkIssue {
  category : string;
  level : string;
  message : string;
  location : option string
}.

(** [issues.append(x)] *)
Definition append (issues : list ValidationIssue) (x : ValidationIssue)
  : list ValidationIssue := (issues ++ [x])%list.

(** *** validate_frontmatter *)

(** The loop over [enumerate(lines[1:], 1)] looking for the closing fence;
    [None] is the [-1] the code starts from. *)
Fixpoint find_closing_fence (ls : list string) (i : nat) : option nat :=
  match ls with
  | [] => None
  | line :: ls' =>
      if String.eqb (strip line) "---" then Some i
      else find_closing_fence ls' (S i)
  end.

Definition validate_frontmatter (content : string) (issues : list ValidationIssue)
    (require_frontmatter : bool) : bool * list ValidationIssue :=
  let lines := split_lines content in
  if negb require_frontmatter then (true, issues)
  else if negb (startswith content "---") then
    (false, append issues
       (mkIssue "frontmatter" "error" "Missing opening YAML fence (---)" (Some "line 1")))
  else
    match find_closing_fence (tl lines) 1 with
    | None =>
        (false, append issues
           (mkIssue "frontmatter" "error" "Missing closing YAML fence (---)"
                    (Some "frontmatter")))
    | Some frontmatter_end =>
        let frontmatter_lines := skipn 1 (firstn frontmatter_end lines) in
        let frontmatter := join_lines frontmatter_lines in
        let issues1 :=
          if negb (contains frontmatter "name:") then
            append issues (mkIssue "frontmatter" "warning"
                             "Missing 'name' field in frontmatter" (Some "frontmatter"))
          else issues in
        let issues2 :=
          if negb (contains frontmatter "description:") then
            append issues1 (mkIssue "frontmatter" "warning"
                              "Missing 'description' field in frontmatter"
                              (Some "frontmatter"))
          else issues1 in
        let issues3 :=
          if contains frontmatter "<" || contains frontmatter ">" then
            append issues2 (mkIssue "frontmatter" "warning"
                              "Angle brackets detected in frontmatter (use &lt; or &gt; instead)"
                              (Some "frontmatter"))
          else issues2 in
        (true, issues3)
    end.

(** *** validate_structure *)

(** [[i for i, line in enumerate(lines) if line.startswith("##")]] *)
Fixpoint heading_indices (lines : list string) (i : nat) : list nat :=
  match lines with
  | [] => []
  | line :: rest =>
      if startswith line "##" then i :: heading_indices rest (S i)
      else heading_indices rest (S i)
  end.

Definition no_headings_issue : ValidationIssue :=
  mkIssue "structure" "warning" "No section headings (##) found" (Some "entire file").

Fixpoint required_loop (required : list string) (content : string)
    (issues : list ValidationIssue) : list ValidationIssue :=
  match required with
  | [] => issues
  | section :: rest =>
      required_loop rest content
        (if negb (contains content section) then
           append issues (mkIssue "structure" "warning"
                            ("Missing required section: " ++ section) (Some "sections"))
         else issues)
  end.

Definition validate_structure (content claude_type : string)
    (issues : list ValidationIssue) : list ValidationIssue :=
  let lines := split_lines content in
  let headings := heading_indices lines 0 in
  let issues1 := match headings with
                 | [] => append issues no_headings_issue
                 | _ => issues
                 end in
  let required := dict_get REQUIRED_SECTIONS claude_type [] in
  required_loop required content issues1.

(** *** validate_best_practices *)

(** The loop over the lines; the state is [in_code_block], [current_section]
    and [bullet_sections].  What it returns is [bullet_sections] as the loop
    leaves it. *)
Fixpoint bullet_loop (lines : list string) (in_code_block : bool)
    (current_section : list string) (bullet_sections : list (list string))
  : list (list string) :=
  match lines with
  | [] => bullet_sections
  | line :: rest =>
      if startswith (strip line) "```" then
        bullet_loop rest (negb in_code_block) current_section bullet_sections
      else if in_code_block then
        bullet_loop rest in_code_block current_section bullet_sections
      else if startswith (strip line) "- " && contains line "|" then
        bullet_loop rest in_code_block (current_section ++ [line])%list bullet_sections
      else
        match current_section with
        | [] => bullet_loop rest in_code_block current_section bullet_sections
        | _ =>
            bullet_loop rest in_code_block []
              (if 3 <=? List.length current_section
               then (bullet_sections ++ [current_section])%list
               else bullet_sections)
        end
  end.

Definition validate_best_practices (content claude_type : string)
    (issues : list ValidationIssue) : list ValidationIssue :=
  let lines := split_lines content in
  let line_count := List.length lines in
  let '(min_lines, max_lines) := dict_get LINE_COUNT_TARGETS claude_type (0, 500) in
  let issues1 :=
    if max_lines <? line_count then
      append issues
        (mkIssue "best_practices" "warning"
           ("Line count: " ++ str_of_nat line_count ++ " (target: "
            ++ str_of_nat min_lines ++ "-" ++ str_of_nat max_lines
            ++ "). Consider using references/ for detailed content.")
           (Some "entire file"))
    else issues in
  let bullet_sections := bullet_loop lines false [] [] in
  match bullet_sections with
  | [] => issues1
  | _ =>
      append issues1
        (mkIssue "best_practices" "info"
           ("Found " ++ str_of_nat (List.length bullet_sections)
            ++ " sections with bullet lists containing pipes - consider using Markdown tables instead")
           (Some "formatting"))
  end.

(** *** validate_content *)

(** The first loop: code blocks and tables are left out of the prose.  The
    state is [in_code_block], [in_table] and [prose_content]. *)
Fixpoint prose_loop (lines : list string) (in_code_block in_table : bool)
    (prose_content : list string) : list string :=
  match lines with
  | [] => prose_content
  | line :: rest =>
      if startswith (strip line) "```" then
        prose_loop rest (negb in_code_block) in_table prose_content
      else if in_code_block then
        prose_loop rest in_code_block in_table prose_content
      else if contains line "|" && startswith (strip line) "|" then
        prose_loop rest in_code_block true prose_content
      else if in_table && String.eqb (strip line) EmptyString then
        prose_loop rest in_code_block false prose_content
      else if in_table then
        prose_loop rest in_code_block in_table prose_content
      else
        prose_loop rest in_code_block in_table (prose_content ++ [line])%list
  end.

(** r'`(?:\./|\.\./|[\w\-]+/)+[\w\-./]+(?:\.\w+)?`' *)
Definition path_pattern : regex :=
  let backtick := chr "`"%char in
  let word_or_hyphen := Sym (fun c => isword c || Ascii.eqb c "-"%char) in
  let path_char :=
    Sym (fun c => isword c || Ascii.eqb c "-"%char || Ascii.eqb c "."%char
                  || Ascii.eqb c "/"%char) in
  cats [ backtick;
         Plus (alts [ lit "./"; lit "../"; Cat (Plus word_or_hyphen) (chr "/"%char) ]);
         Plus path_char;
         Opt (Cat (chr "."%char) (Plus word));
         backtick ].

Definition skip_patterns : list string :=
  [ "http://"; "https://"; "://";
    "npm run"; "pip install"; "cargo run"; "go run";
    "pytest"; "npm test"; "npx"; "uvicorn";
    "anchor"; "solana"; "git ";
    "mcp__"; "__";
    "else"; "if "; "for "; "while "; "return" ].

Definition double_quote : ascii := "034"%char.

Definition odd_chars : list string :=
  [ "("; ")"; "{"; "}"; "<"; ">"; String double_quote EmptyString; "'" ].

Definition base_dirs : list string :=
  [ "."; "./frontend"; "./gateway"; "./programs"; "./agents" ].

(** How a validator that touches the file system leaves: normally, or with
    the [OSError] of an [exists] call, which nothing in the program catches.
    Either way the shared list is as the validator left it. *)
Inductive ending : Type :=
| Done
| Raises.

(** The loop over [base_dir], left at the first directory under which the
    path exists; its value is [found].  [None] when an [exists] call raises. *)
Fixpoint base_dir_loop (w : world) (path_ref : string) (dirs : list string)
  : option bool :=
  match dirs with
  | [] => Some false
  | base_dir :: rest =>
      match exists_ w (joinpath (parse base_dir) (parse path_ref)) with
      | None => None
      | Some true => Some true
      | Some false => base_dir_loop w path_ref rest
      end
  end.

(** The body of the loop over the matches, for one match. *)
Definition check_path_ref (w : world) (matched : string)
    (issues : list ValidationIssue) : list ValidationIssue * ending :=
  let path_ref := strip_chars "`" matched in
  if existsb (fun x => contains (lower path_ref) x) skip_patterns then (issues, Done)
  else if existsb (fun c => contains path_ref c) odd_chars then (issues, Done)
  else
    let test_path := parse path_ref in
    match exists_ w test_path with
    | None => (issues, Raises)
    | Some true => (issues, Done)
    | Some false =>
        match base_dir_loop w path_ref base_dirs with
        | None => (issues, Raises)
        | Some found =>
            if negb found && (count_char path_ref slash <? 3) then
              (append issues
                 (mkIssue "content" "info"
                    ("Referenced path does not exist: " ++ path_ref)
                    (Some "references")),
               Done)
            else (issues, Done)
        end
    end.

Fixpoint path_ref_loop (w : world) (matches : list string)
    (issues : list ValidationIssue) : list ValidationIssue * ending :=
  match matches with
  | [] => (issues, Done)
  | m :: rest =>
      match check_path_ref w m issues with
      | (issues', Done) => path_ref_loop w rest issues'
      | (issues', Raises) => (issues', Raises)
      end
  end.

Definition validate_content (w : world) (content : string)
    (issues : list ValidationIssue) : list ValidationIssue * ending :=
  let lines := split_lines content in
  let prose_content := prose_loop lines false false [] in
  let prose_text := join_lines prose_content in
  path_ref_loop w (finditer path_pattern prose_text) issues.

(** *** validate_dynamic_content *)

(** The patterns are searched with [re.IGNORECASE]. *)
Definition status_words : list string :=
  [ "pending"; "done"; "complete"; "in_progress"; "blocked" ].

Definition dynamic_patterns : list (regex * string) :=
  [ (cats [ lit_ci "|"; Star ws; lit_ci "Status"; Star ws; lit_ci "|" ],
     "Table has 'Status' column - dynamic data belongs in feature-list.json");
    (cats [ lit_ci "|"; Star ws; alts (map lit_ci status_words); Star ws; lit_ci "|" ],
     "Table contains status values - move to progress files");
    (cats [ lit_ci "##"; Star ws;
            alts (map lit_ci [ "Implementation"; "Feature"; "Phase" ]);
            Star any; lit_ci "Status" ],
     "Section title suggests status tracking");
    (Alt (lit_ci "[x]") (cats [ lit_ci "["; Star ws; lit_ci "]" ]),
     "Task checkboxes - use task tracker instead");
    (alts (map lit_ci [ "TO-DO:"; "TODO:"; "FIXME:" ]),
     "Inline todos - use task tracker instead");
    (cats [ lit_ci "Phase"; Plus ws; Plus digit; Star any; lit_ci ":"; Star ws;
            alts (map lit_ci [ "pending"; "done"; "complete" ]) ],
     "Phase status tracking - move to progress files") ].

(** The inner loop over the patterns, left at the first match. *)
Fixpoint pattern_loop (patterns : list (regex * string)) (line : string) (i : nat)
    (issues : list ValidationIssue) : list ValidationIssue :=
  match patterns with
  | [] => issues
  | (pattern, msg) :: rest =>
      if re_search pattern line then
        append issues
          (mkIssue "content" "warning" ("Dynamic content detected: " ++ msg)
                   (Some ("line " ++ str_of_nat i)))
      else pattern_loop rest line i issues
  end.

(** The loop over [enumerate(lines, 1)].  [in_code] is a local the code only
    binds at the first fence: [None] is "not in [locals()]". *)
Fixpoint dynamic_loop (lines : list string) (i : nat) (in_code : option bool)
    (issues : list ValidationIssue) : list ValidationIssue :=
  match lines with
  | [] => issues
  | line :: rest =>
      if startswith (strip line) "```" then
        dynamic_loop rest (S i)
          (Some (match in_code with Some b => negb b | None => true end)) issues
      else if (match in_code with Some b => b | None => false end) then
        dynamic_loop rest (S i) in_code issues
      else
        dynamic_loop rest (S i) in_code (pattern_loop dynamic_patterns line i issues)
  end.

Definition validate_dynamic_content (content : string)
    (issues : list ValidationIssue) : list ValidationIssue :=
  dynamic_loop (split_lines content) 1 None issues.

(** *** detect_claude_type_from_content *)

Definition detect_claude_type_from_content (w : world) (content : string)
    (file_path : Path) : string :=
  let path := file_path in
  if path_eqb path (joinpath (joinpath (home w) (parse ".claude")) (parse "CLAUDE.md"))
  then "global"
  else if contains (str path) ".claude/rules" then "rules"
  else if String.eqb (name path) "CLAUDE.local.md" then "local"
  else "project".

(** *** validate_file *)

(** The result dictionary; [type] is absent from the one built for a missing
    file. *)
Record result : Type := mkResult {
  valid : bool;
  type : option string;
  errors : nat;
  warnings : nat;
  info : nat;
  issues : list ValidationIssue
}.

(** How a call ends: with the dictionary it built and the value it returns,
    or with an exception leaving the function. *)
Inductive outcome : Type :=
| Returned (r : result) (code : nat)
| Raised.

(** [sum(1 for i in issues if i.level == l)] *)
Definition count_level (l : string) (issues : list ValidationIssue) : nat :=
  List.length (filter (fun i => String.eqb (level i) l) issues).

Definition not_found_result (file_path : string) : result :=
  mkResult false None 1 0 0
    [ mkIssue "file" "error" ("File not found: " ++ file_path) (Some "filesystem") ].

Definition validate_file (w : world) (file_path : string) (json_output : bool)
  : outcome :=
  let path := parse file_path in
  match exists_ w path with
  | None => Raised
  | Some false => Returned (not_found_result file_path) 2
  | Some true =>
      match read_text w path with
      | None => Raised
      | Some content =>
          let issues0 : list ValidationIssue := [] in
          let claude_type := detect_claude_type_from_content w content path in
          let require_frontmatter :=
            contains (str path) "skills" || String.eqb (name path) "SKILL.md" in
          let issues1 :=
            snd (validate_frontmatter content issues0 require_frontmatter) in
          let issues2 := validate_structure content claude_type issues1 in
          let issues3 := validate_best_practices content claude_type issues2 in
          match validate_content w content issues3 with
          | (_, Raises) => Raised
          | (issues4, Done) =>
              let issues5 := validate_dynamic_content content issues4 in
              let errors := count_level "error" issues5 in
              let warnings := count_level "warning" issues5 in
              let infos := count_level "info" issues5 in
              Returned
                (mkResult (errors =? 0) (Some claude_type) errors warnings infos
                          issues5)
                (if errors =? 0 then 0 else if 0 <? errors then 2 else 1)
          end
      end
  end.



End Validator.

(** * Properties *)

Module Props.

Import PyStr Re Pathlib Validator.

(** ** Strings *)

Lemma startswith_split (x s : string) :
  startswith s x = true -> exists post, s = x ++ post.
Proof.
  revert s. induction x as [|a x IH]; intros s H.
  - now exists s.
  - destruct s as [|b s]; simpl in H; [discriminate|].
    apply andb_true_iff in H as [Hab Hx].
    apply Ascii.eqb_eq in Hab. subst b.
    destruct (IH _ Hx) as [post ->]. now exists post.
Qed.

Lemma startswith_append (x post : string) : startswith (x ++ post) x = true.
Proof.
  induction x as [|a x IH]; simpl; [reflexivity|].
  now rewrite Ascii.eqb_refl.
Qed.

Lemma contains_split (x s : string) :
  contains s x = true -> exists pre post, s = pre ++ x ++ post.
Proof.
  induction s as [|c s IH]; simpl; intros H.
  - rewrite orb_false_r in H. apply startswith_split in H as [post ->].
    now exists EmptyString, post.
  - apply orb_true_iff in H as [H|H].
    + apply startswith_split in H as [post ->]. now exists EmptyString, post.
    + destruct (IH H) as (pre & post & ->). now exists (String c pre), post.
Qed.

Lemma contains_of_startswith (s x : string) :
  startswith s x = true -> contains s x = true.
Proof. intros H. destruct s; simpl; rewrite H; reflexivity. Qed.

Lemma contains_append (pre x post : string) : contains (pre ++ x ++ post) x = true.
Proof.
  induction pre as [|c pre IH]; simpl.
  - apply contains_of_startswith, startswith_append.
  - rewrite IH. apply orb_true_r.
Qed.

Lemma lower_append (a b : string) : lower (a ++ b) = lower a ++ lower b.
Proof. induction a as [|c a IH]; simpl; [reflexivity|now rewrite IH]. Qed.

Lemma contains_lower (s x : string) :
  contains s x = true -> contains (lower s) (lower x) = true.
Proof.
  intros H. apply contains_split in H as (pre & post & ->).
  rewrite !lower_append. apply contains_append.
Qed.

Lemma append_inj_l (a b c : string) : a ++ b = a ++ c -> b = c.
Proof.
  induction a as [|x a IH]; simpl; intros H; [exact H|].
  injection H as H. now apply IH.
Qed.

Lemma str_of_nat_inj (a b : nat) : str_of_nat a = str_of_nat b -> a = b.
Proof.
  unfold str_of_nat. intros H.
  assert (E : Some (Nat.to_uint a) = Some (Nat.to_uint b)).
  { rewrite <- !NilEmpty.usu. now rewrite H. }
  injection E as E.
  rewrite <- (DecimalNat.Unsigned.of_to a), <- (DecimalNat.Unsigned.of_to b).
  now rewrite E.
Qed.

(** ** Counting by level *)

Lemma count_level_zero (l : string) (xs : list ValidationIssue) :
  count_level l xs = 0 <-> Forall (fun i => level i <> l) xs.
Proof.
  unfold count_level. induction xs as [|x xs IH]; simpl.
  - split; auto.
  - destruct (String.eqb (level x) l) eqn:E; simpl.
    + apply String.eqb_eq in E. split; [discriminate|].
      intros H. inversion H; subst. contradiction.
    + apply String.eqb_neq in E. rewrite IH. split.
      * intros H. now constructor.
      * intros H. now inversion H.
Qed.

(** ** The result of a run *)

(** Whether the body of the loop raises does not depend on the issues
    collected so far. *)
Lemma check_path_ref_ending (w : world) (m : string) (xs ys : list ValidationIssue) :
  snd (check_path_ref w m xs) = snd (check_path_ref w m ys).
Proof.
  unfold check_path_ref. cbv zeta.
  destruct (existsb _ skip_patterns); [reflexivity|].
  destruct (existsb _ odd_chars); [reflexivity|].
  destruct (exists_ w _) as [[|]|]; try reflexivity.
  destruct (base_dir_loop w _ base_dirs) as [found|]; [|reflexivity].
  destruct (negb found && _); reflexivity.
Qed.

Lemma path_ref_loop_ending (w : world) (matches : list string)
    (xs ys : list ValidationIssue) :
  snd (path_ref_loop w matches xs) = snd (path_ref_loop w matches ys).
Proof.
  revert xs ys. induction matches as [|m rest IH]; intros xs ys; cbn [path_ref_loop];
    [reflexivity|].
  pose proof (check_path_ref_ending w m xs ys) as E.
  destruct (check_path_ref w m xs) as [xs' [|]], (check_path_ref w m ys) as [ys' [|]];
    cbn [snd] in E; try discriminate; [apply IH|reflexivity].
Qed.

Lemma validate_content_ending (w : world) (content : string)
    (xs ys : list ValidationIssue) :
  snd (validate_content w content xs) = snd (validate_content w content ys).
Proof. unfold validate_content. apply path_ref_loop_ending. Qed.

Lemma read_text_exists (w : world) (p : Path) (content : string) :
  read_text w p = Some content -> exists_ w p = Some true.
Proof.
  unfold read_text, exists_. destruct (lookup w p); now try discriminate.
Qed.

(** A run whose document can be read: it raises when the content validator
    does, and otherwise this is what it returns. *)
Lemma validate_file_reads (w : world) (file_path : string) (json_output : bool)
    (content : string) :
  read_text w (parse file_path) = Some content ->
  (snd (validate_content w content []) = Raises
   /\ validate_file w file_path json_output = Raised)
  \/ (snd (validate_content w content []) = Done
      /\ exists xs,
          validate_file w file_path json_output =
            Returned
              (mkResult (count_level "error" xs =? 0)
                 (Some (detect_claude_type_from_content w content (parse file_path)))
                 (count_level "error" xs) (count_level "warning" xs)
                 (count_level "info" xs) xs)
              (if count_level "error" xs =? 0 then 0 else 2)).
Proof.
  intros Hr. unfold validate_file.
  rewrite (read_text_exists _ _ _ Hr), Hr. cbv zeta.
  match goal with
  | |- context [validate_content w content ?xs] =>
      rewrite (validate_content_ending w content [] xs);
      destruct (validate_content w content xs) as [ys [|]]
  end; cbn [snd].
  - right. split; [reflexivity|]. eexists. f_equal.
    destruct (count_level "error" _) eqn:E; reflexivity.
  - left. split; reflexivity.
Qed.

Lemma validate_file_missing (w : world) (file_path : string) (json_output : bool) :
  exists_ w (parse file_path) = Some false ->
  validate_file w file_path json_output = Returned (not_found_result file_path) 2.
Proof. intros H. unfold validate_file. now rewrite H. Qed.

Lemma validate_file_unreadable (w : world) (file_path : string) (json_output : bool) :
  exists_ w (parse file_path) = Some true ->
  read_text w (parse file_path) = None ->
  validate_file w file_path json_output = Raised.
Proof. intros He Hr. unfold validate_file. now rewrite He, Hr. Qed.

Lemma validate_file_inaccessible (w : world) (file_path : string) (json_output : bool) :
  exists_ w (parse file_path) = None ->
  validate_file w file_path json_output = Raised.
Proof. intros He. unfold validate_file. now rewrite He. Qed.

(** What a run returns, whenever it returns. *)
Lemma validate_file_returned (w : world) (file_path : string) (json_output : bool)
    (r : result) (code : nat) :
  validate_file w file_path json_output = Returned r code ->
  (exists_ w (parse file_path) = Some false
   /\ r = not_found_result file_path /\ code = 2)
  \/ (exists content xs,
        read_text w (parse file_path) = Some content
        /\ snd (validate_content w content []) = Done
        /\ r = mkResult (count_level "error" xs =? 0)
                 (Some (detect_claude_type_from_content w content (parse file_path)))
                 (count_level "error" xs) (count_level "warning" xs)
                 (count_level "info" xs) xs
        /\ code = (if count_level "error" xs =? 0 then 0 else 2)).
Proof.
  intros E. destruct (exists_ w (parse file_path)) as [[|]|] eqn:He.
  - destruct (read_text w (parse file_path)) as [content|] eqn:Hr.
    + destruct (validate_file_reads w file_path json_output content Hr)
        as [[_ E']|[Hd [xs E']]]; rewrite E' in E; [discriminate|].
      injection E as <- <-. right. exists content, xs. repeat split. exact Hd.
    + rewrite (validate_file_unreadable _ _ _ He Hr) in E. discriminate.
  - rewrite (validate_file_missing _ _ _ He) in E. injection E as <- <-.
    left. repeat split.
  - rewrite (validate_file_inaccessible _ _ _ He) in E. discriminate.
Qed.

(** Worlds used as concrete inputs. *)
Definition home_u : Path := parse "/home/u".

Definition empty_world : world := mkWorld home_u (fun _ => Absent).

Definition one_file_world (file_path text : string) : world :=
  mkWorld home_u
    (fun p => if path_eqb p (parse file_path) then Readable text else Absent).



(** C1: whenever a run returns a result, and so for every run that reads
    its document, the result's [valid] field is [errors == 0], where
    [errors] counts the error-level issues of the issue sequence; so [valid]
    holds exactly when no issue is at error level, whatever the warning and
    info issues are. *)
Theorem C1_valid_iff_no_errors (w : world) (file_path : string) (json_output : bool)
    (r : result) (code : nat) :
  validate_file w file_path json_output = Returned r code ->
  valid r = (errors r =? 0)
  /\ errors r = count_level "error" (issues r)
  /\ warnings r = count_level "warning" (issues r)
  /\ info r = count_level "info" (issues r)
  /\ (valid r = true <-> Forall (fun i => level i <> "error") (issues r)).
Proof.
  intros E.
  apply validate_file_returned in E as [(_ & -> & _)|(content & xs & _ & _ & -> & _)].
  - cbn [valid errors warnings info issues not_found_result].
    repeat split; try reflexivity; try discriminate.
    intros H. inversion H as [|? ? Hl _]; subst. now elim Hl.
  - cbn [valid errors warnings info issues]. repeat split; try reflexivity.
    + intros H. apply Nat.eqb_eq in H. now apply count_level_zero.
    + intros H. apply Nat.eqb_eq. now apply count_level_zero.
Qed.

Lemma C1_witness :
  exists r code,
    validate_file (one_file_world "CLAUDE.md" "# Title") "CLAUDE.md" true = Returned r code
    /\ type r = Some "project"
    /\ valid r = (errors r =? 0)
    /\ errors r = count_level "error" (issues r)
    /\ warnings r = count_level "warning" (issues r)
    /\ info r = count_level "info" (issues r)
    /\ (valid r = true <-> Forall (fun i => level i <> "error") (issues r)).
Proof.
  eexists _, _. split; [reflexivity|]. split; [reflexivity|].
  apply (C1_valid_iff_no_errors (one_file_world "CLAUDE.md" "# Title") "CLAUDE.md" true
           _ _ eq_refl).
Defined.













(** ** Frontmatter *)

Definition nl : string := String newline EmptyString.

Definition opening_fence_issue : ValidationIssue :=
  mkIssue "frontmatter" "error" "Missing opening YAML fence (---)" (Some "line 1").

Definition closing_fence_issue : ValidationIssue :=
  mkIssue "frontmatter" "error" "Missing closing YAML fence (---)" (Some "frontmatter").

(** Without the three leading characters the validator reports the opening
    fence and nothing else. *)
Lemma validate_frontmatter_no_prefix (content : string) (xs : list ValidationIssue) :
  startswith content "---" = false ->
  validate_frontmatter content xs true = (false, (xs ++ [opening_fence_issue])%list).
Proof. intros H. unfold validate_frontmatter. now rewrite H. Qed.

Lemma find_closing_fence_none (ls : list string) (i : nat) :
  forallb (fun line => negb (String.eqb (strip line) "---")) ls = true ->
  find_closing_fence ls i = None.
Proof.
  revert i. induction ls as [|l ls IH]; intros i H; simpl in *; [reflexivity|].
  apply andb_true_iff in H as [Hl Hls].
  apply negb_true_iff in Hl. rewrite Hl. now apply IH.
Qed.

Definition four_hyphens_document : string :=
  "----" ++ nl ++ "name: demo" ++ nl ++ "description: a skill" ++ nl ++ "---" ++ nl
  ++ "# Body".

Definition hyphens_and_text_document : string :=
  "--- x" ++ nl ++ "name: demo" ++ nl ++ "description: a skill" ++ nl ++ "---".

(** C4: the opening check looks at the first three characters of the
    document only.  A first line "----" or "--- x" is not a line of
    exactly three hyphens, yet the validator takes it for the opening fence:
    it reports no missing opening fence and goes on to the later checks. *)
Theorem C4_opening_check_is_a_prefix_test :
  hd EmptyString (split_lines four_hyphens_document) = "----"
  /\ validate_frontmatter four_hyphens_document [] true = (true, [])
  /\ hd EmptyString (split_lines hyphens_and_text_document) = "--- x"
  /\ validate_frontmatter hyphens_and_text_document [] true = (true, [])
  /\ validate_frontmatter "----" [] true = (false, [closing_fence_issue]).
Proof. repeat split; reflexivity. Qed.

(** C10: the search for the closing fence starts after the first line.  When
    frontmatter is required, the document starts with the fence and no later
    line is a fence, the validator reports the missing closing fence, and
    only that: nothing about name, description or angle brackets. *)
Theorem C10_opening_fence_not_reused (content : string) (xs : list ValidationIssue) :
  startswith content "---" = true ->
  forallb (fun line => negb (String.eqb (strip line) "---"))
          (tl (split_lines content)) = true ->
  validate_frontmatter content xs true = (false, (xs ++ [closing_fence_issue])%list).
Proof.
  intros Hs Hn. unfold validate_frontmatter. rewrite Hs. simpl negb. cbv iota.
  now rewrite (find_closing_fence_none _ 1 Hn).
Qed.

Lemma C10_witness :
  validate_frontmatter "---" [] true = (false, [closing_fence_issue])
  /\ validate_frontmatter ("---" ++ nl ++ "name: demo" ++ nl ++ "<b>") [] true
     = (false, [closing_fence_issue]).
Proof.
  split.
  - apply (C10_opening_fence_not_reused "---" []); reflexivity.
  - apply (C10_opening_fence_not_reused ("---" ++ nl ++ "name: demo" ++ nl ++ "<b>") []);
      reflexivity.
Defined.

(** ** Structure *)

Definition no_headings_message : string := "No section headings (##) found".

(** How many issues carry the message [m]. *)
Definition count_message (m : string) (xs : list ValidationIssue) : nat :=
  List.length (filter (fun i => String.eqb (message i) m) xs).

Lemma count_message_app (m : string) (xs ys : list ValidationIssue) :
  count_message m (xs ++ ys) = count_message m xs + count_message m ys.
Proof. unfold count_message. now rewrite filter_app, length_app. Qed.

Lemma heading_indices_length (lines : list string) (i : nat) :
  List.length (heading_indices lines i)
  = List.length (filter (fun line => startswith line "##") lines).
Proof.
  revert i. induction lines as [|l lines IH]; intros i; [reflexivity|].
  cbn [heading_indices filter].
  destruct (startswith l "##"); cbn [List.length]; now rewrite IH.
Qed.

Lemma required_loop_keeps_count (required : list string) (content : string)
    (xs : list ValidationIssue) :
  count_message no_headings_message (required_loop required content xs)
  = count_message no_headings_message xs.
Proof.
  revert xs. induction required as [|section rest IH]; intros xs; [reflexivity|].
  cbn [required_loop].
  rewrite IH. destruct (contains content section); cbn [negb]; [reflexivity|].
  unfold append. rewrite count_message_app.
  change (count_message no_headings_message
            [mkIssue "structure" "warning" ("Missing required section: " ++ section)
                     (Some "sections")]) with 0.
  lia.
Qed.

(** The lines the spec calls second-level headings. *)
Definition second_level_headings (content : string) : list string :=
  filter (fun line => startswith line "## ") (split_lines content).

(** C5, as stated, fails: a document whose only heading-like line starts with
    "###", or with "##" and no space, has no line starting with "## ",
    and gets no warning. *)
Lemma C5_counterexample :
  second_level_headings "### Details" = []
  /\ validate_structure "### Details" "project" [] = []
  /\ second_level_headings "##Details" = []
  /\ validate_structure "##Details" "project" [] = [].
Proof. repeat split; reflexivity. Qed.

(** C5, amended: the structural validator counts the lines that start with
    the two characters "##" (deeper headings and "##" without a space
    included) and adds the "no section headings" warning, once, exactly
    when that count is zero. *)
Theorem C5_headings_counted_by_prefix (content claude_type : string)
    (xs : list ValidationIssue) :
  count_message no_headings_message (validate_structure content claude_type xs)
  = count_message no_headings_message xs
    + (if List.length (filter (fun line => startswith line "##") (split_lines content))
          =? 0
       then 1 else 0).
Proof.
  unfold validate_structure. rewrite required_loop_keeps_count.
  rewrite <- (heading_indices_length (split_lines content) 0).
  destruct (heading_indices (split_lines content) 0); simpl.
  - unfold append. rewrite count_message_app. reflexivity.
  - lia.
Qed.

(** ** Classification *)

(** [Path.home() / ".claude" / "CLAUDE.md"] *)
Definition global_memory_file (w : world) : Path :=
  joinpath (joinpath (home w) (parse ".claude")) (parse "CLAUDE.md").

Lemma path_eqb_eq (p q : Path) : path_eqb p q = true <-> p = q.
Proof.
  destruct p as [rp pp], q as [rq pq]. unfold path_eqb. cbn [root parts].
  rewrite andb_true_iff, String.eqb_eq.
  assert (L : forall a b,
             (fix eqs (a b : list string) : bool :=
                match a, b with
                | [], [] => true
                | x :: a', y :: b' => String.eqb x y && eqs a' b'
                | _, _ => false
                end) a b = true <-> a = b).
  { induction a as [|x a IH]; destruct b as [|y b]; try (split; [discriminate|discriminate]).
    - split; reflexivity.
    - rewrite andb_true_iff, String.eqb_eq, IH. split.
      + intros [-> ->]. reflexivity.
      + intros E. injection E as -> ->. split; reflexivity. }
  rewrite L. split.
  - intros [-> ->]. reflexivity.
  - intros E. injection E as -> ->. split; reflexivity.
Qed.

(** The spec's "located under a rules directory": some directory above the
    file is named "rules". *)
Definition under_rules_directory (p : Path) : Prop :=
  In "rules" (removelast (parts p)).

Definition rules_home_world : world :=
  mkWorld (parse "/srv/.claude/rules") (fun _ => Absent).

(** C6, as stated, fails: a file under a directory named "rules" that is not
    ".claude/rules" is classified by its name ("local", "project");
    and the global memory file of a home directory that itself lies under
    ".claude/rules" is "global". *)
Lemma C6_counterexample :
  (under_rules_directory (parse "rules/CLAUDE.local.md")
   /\ detect_claude_type_from_content empty_world EmptyString
        (parse "rules/CLAUDE.local.md") = "local")
  /\ (under_rules_directory (parse "docs/rules/style.md")
      /\ detect_claude_type_from_content empty_world EmptyString
           (parse "docs/rules/style.md") = "project")
  /\ (under_rules_directory (parse "/srv/.claude/rules/.claude/CLAUDE.md")
      /\ contains (str (parse "/srv/.claude/rules/.claude/CLAUDE.md")) ".claude/rules"
         = true
      /\ detect_claude_type_from_content rules_home_world EmptyString
           (parse "/srv/.claude/rules/.claude/CLAUDE.md") = "global").
Proof.
  unfold under_rules_directory.
  repeat split; try reflexivity; cbn; auto 10.
Qed.

(** C6, amended: classification is a total function of the path (the
    content plays no part) into the four kinds, decided in this order: the
    global memory file is "global"; otherwise a path whose text contains
    ".claude/rules" is "rules", whatever the file is called; otherwise the
    file name "CLAUDE.local.md" gives "local"; otherwise "project". *)
Theorem C6_classification_by_priority (w : world) (content : string) (p : Path) :
  let kind := detect_claude_type_from_content w content p in
  (kind = "global" \/ kind = "rules" \/ kind = "local" \/ kind = "project")
  /\ (forall content', detect_claude_type_from_content w content' p = kind)
  /\ (path_eqb p (global_memory_file w) = true -> kind = "global")
  /\ (path_eqb p (global_memory_file w) = false ->
      contains (str p) ".claude/rules" = true -> kind = "rules")
  /\ (path_eqb p (global_memory_file w) = false ->
      contains (str p) ".claude/rules" = false ->
      name p = "CLAUDE.local.md" -> kind = "local")
  /\ (path_eqb p (global_memory_file w) = false ->
      contains (str p) ".claude/rules" = false ->
      name p <> "CLAUDE.local.md" -> kind = "project").
Proof.
  cbv zeta. unfold detect_claude_type_from_content.
  fold (global_memory_file w).
  destruct (path_eqb p (global_memory_file w)) eqn:Eg;
    [|destruct (contains (str p) ".claude/rules") eqn:Er;
      [|destruct (String.eqb (name p) "CLAUDE.local.md") eqn:En]].
  - repeat split; auto; discriminate.
  - repeat split; auto; discriminate.
  - apply String.eqb_eq in En.
    repeat split; auto; try discriminate. intros _ _ H. contradiction.
  - apply String.eqb_neq in En.
    repeat split; auto; try discriminate. intros _ _ H. contradiction.
Qed.

Lemma C6_witness :
  detect_claude_type_from_content empty_world "# Rules"
    (parse "repo/.claude/rules/CLAUDE.local.md") = "rules".
Proof.
  apply (proj1 (proj2 (proj2 (proj2
           (C6_classification_by_priority empty_world "# Rules"
              (parse "repo/.claude/rules/CLAUDE.local.md")))))); reflexivity.
Defined.

(** ** Best practices *)

Definition bullets_to_the_end : string :=
  "- alpha | 1" ++ nl ++ "- beta | 2" ++ nl ++ "- gamma | 3".

Definition bullet_sections_issue (n : nat) : ValidationIssue :=
  mkIssue "best_practices" "info"
    ("Found " ++ str_of_nat n
     ++ " sections with bullet lists containing pipes - consider using Markdown tables instead")
    (Some "formatting").

(** A line the loop adds to the current run. *)
Definition bullet_line (line : string) : bool :=
  startswith (strip line) "- " && contains line "|".

Lemma bullet_line_not_fence (line : string) :
  bullet_line line = true -> startswith (strip line) "```" = false.
Proof.
  unfold bullet_line. intros H. apply andb_true_iff in H as [H _].
  destruct (strip line) as [|c s]; [discriminate|].
  cbn [startswith] in *. apply andb_true_iff in H as [H _].
  apply Ascii.eqb_eq in H. subst c. reflexivity.
Qed.

(** The loop ends without looking at the run it is in: bullet lines at the
    end of the document leave the recorded sections as they were. *)
Lemma bullet_loop_ignores_trailing_run (pre run : list string) (in_code_block : bool)
    (current_section : list string) (bullet_sections : list (list string)) :
  forallb bullet_line run = true ->
  bullet_loop (pre ++ run) in_code_block current_section bullet_sections
  = bullet_loop pre in_code_block current_section bullet_sections.
Proof.
  intros Hrun. revert in_code_block current_section bullet_sections.
  induction pre as [|line pre IH]; intros b cur secs.
  - cbn [List.app bullet_loop]. revert cur.
    induction run as [|line run IHrun]; intros cur; [reflexivity|].
    cbn [forallb] in Hrun. apply andb_true_iff in Hrun as [Hl Hrun].
    cbn [bullet_loop]. rewrite (bullet_line_not_fence _ Hl).
    fold (bullet_line line). rewrite Hl.
    destruct b; now apply IHrun.
  - cbn [List.app bullet_loop].
    destruct (startswith (strip line) "```"); [apply IH|].
    destruct b; [apply IH|].
    destruct (startswith (strip line) "- " && contains line "|"); [apply IH|].
    destruct cur; apply IH.
Qed.

(** C7: a run is only recorded when a later line ends it.  Three bullet
    lines with pipes that reach the last line of the document are not
    counted (no issue); the same lines followed by a line break are (one
    issue); and of two such runs, the second reaching the end, only the
    first is counted. *)
Theorem C7_run_reaching_the_end_not_counted :
  validate_best_practices bullets_to_the_end "project" [] = []
  /\ validate_best_practices (bullets_to_the_end ++ nl) "project" []
     = [bullet_sections_issue 1]
  /\ validate_best_practices
       (bullets_to_the_end ++ nl ++ "text" ++ nl ++ bullets_to_the_end) "project" []
     = [bullet_sections_issue 1].
Proof. repeat split; reflexivity. Qed.

(** ** Path references *)

Definition missing_path_message (path_ref : string) : string :=
  "Referenced path does not exist: " ++ path_ref.

Definition missing_path_issue (path_ref : string) : ValidationIssue :=
  mkIssue "content" "info" (missing_path_message path_ref) (Some "references").

(** [any(x in path_ref.lower() for x in skip_patterns)] *)
Definition skipped (path_ref : string) : bool :=
  existsb (fun x => contains (lower path_ref) x) skip_patterns.

Lemma missing_path_message_neq (p q : string) :
  skipped p = false -> skipped q = true ->
  String.eqb (missing_path_message p) (missing_path_message q) = false.
Proof.
  intros Hp Hq. apply String.eqb_neq. intros E.
  apply append_inj_l in E. subst q. rewrite Hp in Hq. discriminate.
Qed.

Lemma check_path_ref_count (w : world) (m : string) (xs : list ValidationIssue)
    (q : string) :
  skipped q = true ->
  count_message (missing_path_message q) (fst (check_path_ref w m xs))
  = count_message (missing_path_message q) xs.
Proof.
  intros Hq. unfold check_path_ref. cbv zeta. fold (skipped (strip_chars "`" m)).
  destruct (skipped (strip_chars "`" m)) eqn:Es; [reflexivity|].
  destruct (existsb _ odd_chars); [reflexivity|].
  destruct (exists_ w _) as [[|]|]; try reflexivity.
  destruct (base_dir_loop w _ base_dirs) as [found|]; [|reflexivity].
  destruct (negb found && _); [|reflexivity].
  cbn [fst]. unfold append. rewrite count_message_app.
  fold (missing_path_message (strip_chars "`" m)).
  unfold count_message at 2. cbn [filter message].
  rewrite (missing_path_message_neq _ _ Es Hq). cbn [List.length]. lia.
Qed.

Lemma path_ref_loop_count (w : world) (matches : list string)
    (xs : list ValidationIssue) (q : string) :
  skipped q = true ->
  count_message (missing_path_message q) (fst (path_ref_loop w matches xs))
  = count_message (missing_path_message q) xs.
Proof.
  intros Hq. revert xs.
  induction matches as [|m rest IH]; intros xs; cbn [path_ref_loop]; [reflexivity|].
  pose proof (check_path_ref_count w m xs q Hq) as Hm.
  destruct (check_path_ref w m xs) as [xs' [|]]; cbn [fst] in *.
  - now rewrite IH.
  - exact Hm.
Qed.

Lemma skip_patterns_lower (x : string) : In x skip_patterns -> lower x = x.
Proof.
  unfold skip_patterns. cbn [In]. intros H.
  repeat (destruct H as [<-|H]; [reflexivity|]). contradiction.
Qed.

(** C9: a reference whose text contains an entry of the exclusion list (as
    written, or in any letter case) is never reported as a missing path: the
    content validator adds no "Referenced path does not exist" issue for
    it, whatever the file system holds, and whether the validator ends
    normally or with the exception of an existence check. *)
Theorem C9_excluded_reference_never_reported (w : world) (content : string)
    (xs : list ValidationIssue) (path_ref x : string) :
  In x skip_patterns ->
  contains path_ref x = true \/ contains (lower path_ref) x = true ->
  count_message (missing_path_message path_ref) (fst (validate_content w content xs))
  = count_message (missing_path_message path_ref) xs.
Proof.
  intros Hx Hc. unfold validate_content. cbv zeta.
  apply path_ref_loop_count.
  assert (Hl : contains (lower path_ref) x = true).
  { destruct Hc as [Hc|Hc]; [|exact Hc].
    rewrite <- (skip_patterns_lower x Hx). now apply contains_lower. }
  unfold skipped. apply existsb_exists. exists x. split; assumption.
Qed.

Lemma C9_witness :
  count_message (missing_path_message "npx/create-app")
    (fst (validate_content empty_world
            "Run `npx/create-app` and read `docs/setup.md`." []))
  = count_message (missing_path_message "npx/create-app") [].
Proof.
  apply (C9_excluded_reference_never_reported empty_world
           "Run `npx/create-app` and read `docs/setup.md`." [] "npx/create-app" "npx").
  - cbn. auto 12.
  - left. reflexivity.
Defined.

(** The validator does report references that are not excluded. *)
Example validate_content_reports :
  validate_content empty_world "Run `npx/create-app` and read `docs/setup.md`." []
  = ([missing_path_issue "docs/setup.md"], Done).
Proof. reflexivity. Qed.

(** ** Dynamic content *)

(** [f"line {i}"] *)
Definition line_location (i : nat) : string := "line " ++ str_of_nat i.

Lemma line_location_inj (a b : nat) : line_location a = line_location b -> a = b.
Proof. intros H. apply append_inj_l in H. now apply str_of_nat_inj. Qed.

(** The issues that point at line [n]. *)
Definition at_line (n : nat) (i : ValidationIssue) : bool :=
  match location i with
  | Some l => String.eqb l (line_location n)
  | None => false
  end.

Definition issues_at_line (n : nat) (xs : list ValidationIssue) : list ValidationIssue :=
  filter (at_line n) xs.

Definition dynamic_issue (msg : string) (i : nat) : ValidationIssue :=
  mkIssue "content" "warning" ("Dynamic content detected: " ++ msg)
          (Some (line_location i)).

Lemma at_line_same (msg : string) (i : nat) : at_line i (dynamic_issue msg i) = true.
Proof. unfold at_line. cbn [location dynamic_issue]. apply String.eqb_refl. Qed.

Lemma at_line_other (msg : string) (i n : nat) :
  n <> i -> at_line n (dynamic_issue msg i) = false.
Proof.
  intros H. unfold at_line. cbn [location dynamic_issue].
  apply String.eqb_neq. intros E. apply line_location_inj in E. congruence.
Qed.

(** The inner loop adds the issue of the first pattern that matches, or
    nothing. *)
Lemma pattern_loop_cases (patterns : list (regex * string)) (line : string) (i : nat)
    (xs : list ValidationIssue) :
  (existsb (fun pm => re_search (fst pm) line) patterns = false
   /\ pattern_loop patterns line i xs = xs)
  \/ (existsb (fun pm => re_search (fst pm) line) patterns = true
      /\ exists msg, pattern_loop patterns line i xs = (xs ++ [dynamic_issue msg i])%list).
Proof.
  induction patterns as [|[pattern msg] rest IH]; cbn [pattern_loop existsb fst].
  - left. split; reflexivity.
  - destruct (re_search pattern line).
    + right. split; [reflexivity|]. exists msg. reflexivity.
    + exact IH.
Qed.

Lemma pattern_loop_app (patterns : list (regex * string)) (line : string) (i : nat)
    (xs : list ValidationIssue) :
  pattern_loop patterns line i xs = (xs ++ pattern_loop patterns line i [])%list.
Proof.
  induction patterns as [|[pattern msg] rest IH]; cbn [pattern_loop].
  - now rewrite app_nil_r.
  - destruct (re_search pattern line); [reflexivity|exact IH].
Qed.

Lemma dynamic_loop_app (lines : list string) (i : nat) (in_code : option bool)
    (xs : list ValidationIssue) :
  dynamic_loop lines i in_code xs = (xs ++ dynamic_loop lines i in_code [])%list.
Proof.
  revert i in_code xs.
  induction lines as [|line rest IH]; intros i in_code xs; cbn [dynamic_loop].
  - now rewrite app_nil_r.
  - destruct (startswith (strip line) "```"); [apply IH|].
    destruct (match in_code with Some b => b | None => false end); [apply IH|].
    rewrite pattern_loop_app.
    rewrite (IH _ _ (xs ++ _)%list), (IH _ _ (pattern_loop _ _ _ [])).
    now rewrite app_assoc.
Qed.

Lemma pattern_loop_at_same (line : string) (i : nat) :
  issues_at_line i (pattern_loop dynamic_patterns line i [])
  = pattern_loop dynamic_patterns line i [].
Proof.
  destruct (pattern_loop_cases dynamic_patterns line i []) as [[_ E]|[_ [msg E]]];
    rewrite E; [reflexivity|].
  unfold issues_at_line. rewrite app_nil_l. cbn [filter]. now rewrite at_line_same.
Qed.

Lemma pattern_loop_at_other (line : string) (i n : nat) :
  n <> i -> issues_at_line n (pattern_loop dynamic_patterns line i []) = [].
Proof.
  intros H.
  destruct (pattern_loop_cases dynamic_patterns line i []) as [[_ E]|[_ [msg E]]];
    rewrite E; [reflexivity|].
  unfold issues_at_line. rewrite app_nil_l. cbn [filter]. now rewrite at_line_other.
Qed.

(** Nothing points at a line before the one the loop starts from. *)
Lemma dynamic_loop_at_earlier (lines : list string) (i0 : nat) (in_code : option bool)
    (n : nat) :
  n < i0 -> issues_at_line n (dynamic_loop lines i0 in_code []) = [].
Proof.
  revert i0 in_code.
  induction lines as [|line rest IH]; intros i0 in_code H; cbn [dynamic_loop];
    [reflexivity|].
  destruct (startswith (strip line) "```"); [apply IH; lia|].
  destruct (match in_code with Some b => b | None => false end); [apply IH; lia|].
  rewrite dynamic_loop_app. unfold issues_at_line. rewrite filter_app.
  fold (issues_at_line n (pattern_loop dynamic_patterns line i0 [])).
  fold (issues_at_line n (dynamic_loop rest (S i0) in_code [])).
  rewrite pattern_loop_at_other by lia. rewrite IH by lia. reflexivity.
Qed.

(** A fence line, as every validator recognises it. *)
Definition is_fence (line : string) : bool := startswith (strip line) "```".

(** The number of fence lines among the first [j] lines. *)
Definition fences_before (lines : list string) (j : nat) : nat :=
  List.length (filter is_fence (firstn j lines)).

(** Line [j] belongs to a fenced code block: it is a fence, or an odd number
    of fences precede it. *)
Definition inside_code_block (lines : list string) (j : nat) (line : string) : bool :=
  is_fence line || Nat.odd (fences_before lines j).

Definition in_code_now (in_code : option bool) : bool :=
  match in_code with
  | Some b => b
  | None => false
  end.

Lemma dynamic_loop_at (lines : list string) (i0 : nat) (in_code : option bool)
    (j : nat) (line : string) :
  nth_error lines j = Some line ->
  issues_at_line (i0 + j) (dynamic_loop lines i0 in_code [])
  = if is_fence line || xorb (in_code_now in_code) (Nat.odd (fences_before lines j))
    then []
    else pattern_loop dynamic_patterns line (i0 + j) [].
Proof.
  revert i0 in_code j.
  induction lines as [|a rest IH]; intros i0 in_code j Hj.
  - destruct j; discriminate.
  - destruct j as [|j]; cbn [nth_error] in Hj.
    + injection Hj as ->. rewrite Nat.add_0_r.
      unfold fences_before. cbn [firstn filter List.length Nat.odd].
      rewrite xorb_false_r. cbn [dynamic_loop]. fold (is_fence line).
      fold (in_code_now in_code).
      destruct (is_fence line); cbn [orb]; [apply dynamic_loop_at_earlier; lia|].
      destruct (in_code_now in_code); [apply dynamic_loop_at_earlier; lia|].
      rewrite dynamic_loop_app. unfold issues_at_line. rewrite filter_app.
      fold (issues_at_line i0 (pattern_loop dynamic_patterns line i0 [])).
      fold (issues_at_line i0 (dynamic_loop rest (S i0) in_code [])).
      rewrite pattern_loop_at_same, dynamic_loop_at_earlier by lia.
      now rewrite app_nil_r.
    + replace (i0 + S j) with (S i0 + j) by lia.
      unfold fences_before. cbn [firstn filter].
      fold (fences_before rest j).
      cbn [dynamic_loop]. fold (is_fence a). fold (in_code_now in_code).
      destruct (is_fence a) eqn:Ea.
      * rewrite (IH (S i0) _ j Hj). cbn [List.length in_code_now].
        fold (fences_before rest j).
        replace (match in_code with Some b => negb b | None => true end)
          with (negb (in_code_now in_code)) by (destruct in_code; reflexivity).
        rewrite Nat.odd_succ, <- Nat.negb_odd.
        destruct (in_code_now in_code), (Nat.odd (fences_before rest j)); reflexivity.
      * destruct (in_code_now in_code) eqn:Ec.
        -- rewrite (IH (S i0) _ j Hj), Ec. reflexivity.
        -- rewrite dynamic_loop_app. unfold issues_at_line. rewrite filter_app.
           fold (issues_at_line (S i0 + j) (pattern_loop dynamic_patterns a i0 [])).
           fold (issues_at_line (S i0 + j) (dynamic_loop rest (S i0) in_code [])).
           rewrite pattern_loop_at_other by lia.
           rewrite (IH (S i0) _ j Hj), Ec. reflexivity.
Qed.

(** At most one issue points at any line. *)
Lemma dynamic_loop_at_most_one (lines : list string) (i0 : nat) (in_code : option bool)
    (n : nat) :
  List.length (issues_at_line n (dynamic_loop lines i0 in_code [])) <= 1.
Proof.
  revert i0 in_code.
  induction lines as [|line rest IH]; intros i0 in_code; cbn [dynamic_loop];
    [cbn; lia|].
  destruct (startswith (strip line) "```"); [apply IH|].
  destruct (match in_code with Some b => b | None => false end); [apply IH|].
  rewrite dynamic_loop_app. unfold issues_at_line. rewrite filter_app, length_app.
  fold (issues_at_line n (pattern_loop dynamic_patterns line i0 [])).
  fold (issues_at_line n (dynamic_loop rest (S i0) in_code [])).
  destruct (Nat.eq_dec n i0) as [->|Hn].
  - rewrite dynamic_loop_at_earlier by lia. rewrite pattern_loop_at_same.
    destruct (pattern_loop_cases dynamic_patterns line i0 []) as [[_ E]|[_ [msg E]]];
      rewrite E; cbn; lia.
  - rewrite pattern_loop_at_other by exact Hn. apply IH.
Qed.

(** A match at some position is found by the search. *)
Lemma re_search_append (r : regex) (pre s : string) :
  re_match r s (fun _ => Some tt) = Some tt -> re_search r (pre ++ s) = true.
Proof.
  intros H. induction pre as [|c pre IH].
  - cbn [String.append]. destruct s; cbn [re_search]; now rewrite H.
  - cbn [String.append re_search].
    destruct (re_match r (String c (pre ++ s)) (fun _ => Some tt)); [reflexivity|exact IH].
Qed.

(** r"\[x\]|\[\s*\]" under [re.IGNORECASE] *)
Definition checkbox_pattern : regex :=
  Alt (lit_ci "[x]") (cats [ lit_ci "["; Star ws; lit_ci "]" ]).

Lemma checkbox_pattern_listed :
  In (checkbox_pattern, "Task checkboxes - use task tracker instead") dynamic_patterns.
Proof. unfold dynamic_patterns. do 3 right. left. reflexivity. Qed.

Lemma checkbox_pattern_matches (post : string) :
  re_match checkbox_pattern ("[ ]" ++ post) (fun _ => Some tt) = Some tt
  /\ re_match checkbox_pattern ("[x]" ++ post) (fun _ => Some tt) = Some tt.
Proof. split; reflexivity. Qed.

(** The line holds a literal checkbox marker. *)
Definition has_checkbox (line : string) : bool :=
  contains line "[ ]" || contains line "[x]".

Lemma checkbox_line_matches (line : string) :
  has_checkbox line = true ->
  existsb (fun pm => re_search (fst pm) line) dynamic_patterns = true.
Proof.
  intros H. apply existsb_exists.
  exists (checkbox_pattern, "Task checkboxes - use task tracker instead").
  split; [exact checkbox_pattern_listed|]. cbn [fst].
  apply orb_true_iff in H as [H|H];
    apply contains_split in H as (pre & post & ->);
    apply re_search_append, checkbox_pattern_matches.
Qed.

(** C8: the dynamic-content detector only appends; of what it appends, at
    most one issue points at any given line; none points at a line of a
    fenced code block; and exactly one, a content warning located at the
    line's 1-based number, points at a line outside code blocks that holds
    "[ ]" or "[x]". *)
Theorem C8_checkbox_outside_code_blocks (content : string) (xs : list ValidationIssue)
    (j : nat) (line : string) :
  nth_error (split_lines content) j = Some line ->
  let found := issues_at_line (S j) (validate_dynamic_content content []) in
  validate_dynamic_content content xs
  = (xs ++ validate_dynamic_content content [])%list
  /\ List.length found <= 1
  /\ (inside_code_block (split_lines content) j line = true -> found = [])
  /\ (inside_code_block (split_lines content) j line = false ->
      has_checkbox line = true ->
      exists msg,
        found = [ mkIssue "content" "warning" msg
                          (Some ("line " ++ str_of_nat (S j))) ]).
Proof.
  intros Hj. cbv zeta. unfold validate_dynamic_content.
  split; [apply dynamic_loop_app|].
  split; [apply dynamic_loop_at_most_one|].
  change (S j) with (1 + j).
  rewrite (dynamic_loop_at _ 1 None j line Hj).
  unfold inside_code_block. cbn [in_code_now xorb].
  replace (if Nat.odd (fences_before (split_lines content) j) then true else false)
    with (Nat.odd (fences_before (split_lines content) j))
    by (destruct (Nat.odd _); reflexivity).
  split; intros Hc; rewrite Hc; [reflexivity|].
  intros Hb. apply checkbox_line_matches in Hb.
  destruct (pattern_loop_cases dynamic_patterns line (1 + j) []) as [[H _]|[_ [msg E]]].
  - rewrite H in Hb. discriminate.
  - rewrite E. eexists. reflexivity.
Qed.

Definition checklist_document : string :=
  "# Tasks" ++ nl ++ "- [ ] write the docs" ++ nl ++ "```" ++ nl
  ++ "- [x] inside the block" ++ nl ++ "```".

Lemma C8_witness :
  (exists msg,
     issues_at_line 2 (validate_dynamic_content checklist_document [])
     = [ mkIssue "content" "warning" msg (Some "line 2") ])
  /\ issues_at_line 4 (validate_dynamic_content checklist_document []) = [].
Proof.
  split.
  - apply (proj2 (proj2 (proj2
             (C8_checkbox_outside_code_blocks checklist_document [] 1
                "- [ ] write the docs" eq_refl)))); reflexivity.
  - apply (proj1 (proj2 (proj2
             (C8_checkbox_outside_code_blocks checklist_document [] 3
                "- [x] inside the block" eq_refl)))); reflexivity.
Defined.

End Props.

(** * Further properties of the validator *)

Module Behaviour.

Import PyStr Re Pathlib Validator Props.

(** ** Every validator only appends to the shared list *)

Lemma validate_frontmatter_app (content : string) (xs : list ValidationIssue)
    (require_frontmatter : bool) :
  validate_frontmatter content xs require_frontmatter
  = (fst (validate_frontmatter content [] require_frontmatter),
     (xs ++ snd (validate_frontmatter content [] require_frontmatter))%list).
Proof.
  unfold validate_frontmatter.
  destruct require_frontmatter; cbn [negb]; [|now rewrite app_nil_r].
  destruct (startswith content "---"); cbn [negb]; [|reflexivity].
  destruct (find_closing_fence _ 1) as [e|]; [|reflexivity].
  cbv zeta. unfold append.
  destruct (contains _ "name:"), (contains _ "description:"),
    (contains _ "<" || contains _ ">"); cbn [negb fst snd];
    rewrite ?app_nil_r, ?app_nil_l, <- ?app_assoc; reflexivity.
Qed.

Lemma required_loop_app (required : list string) (content : string)
    (xs : list ValidationIssue) :
  required_loop required content xs = (xs ++ required_loop required content [])%list.
Proof.
  revert xs. induction required as [|section rest IH]; intros xs; cbn [required_loop].
  - now rewrite app_nil_r.
  - destruct (contains content section); cbn [negb]; [apply IH|].
    unfold append. rewrite (IH (xs ++ _)%list), (IH ([] ++ _)%list).
    now rewrite app_nil_l, app_assoc.
Qed.

Lemma validate_structure_app (content claude_type : string) (xs : list ValidationIssue) :
  validate_structure content claude_type xs
  = (xs ++ validate_structure content claude_type [])%list.
Proof.
  unfold validate_structure. cbv zeta.
  destruct (heading_indices _ 0).
  - unfold append. rewrite (required_loop_app _ _ (xs ++ _)%list).
    rewrite (required_loop_app _ _ ([] ++ _)%list).
    now rewrite app_nil_l, app_assoc.
  - apply required_loop_app.
Qed.

Lemma validate_best_practices_app (content claude_type : string)
    (xs : list ValidationIssue) :
  validate_best_practices content claude_type xs
  = (xs ++ validate_best_practices content claude_type [])%list.
Proof.
  unfold validate_best_practices. cbv zeta.
  destruct (dict_get LINE_COUNT_TARGETS claude_type (0, 500)) as [min_lines max_lines].
  unfold append.
  destruct (max_lines <? _), (bullet_loop _ false [] []);
    rewrite ?app_nil_r, ?app_nil_l, <- ?app_assoc; reflexivity.
Qed.

Lemma check_path_ref_app (w : world) (m : string) (xs : list ValidationIssue) :
  check_path_ref w m xs
  = ((xs ++ fst (check_path_ref w m []))%list, snd (check_path_ref w m [])).
Proof.
  unfold check_path_ref. cbv zeta. unfold append.
  destruct (existsb _ skip_patterns); [cbn [fst snd]; now rewrite app_nil_r|].
  destruct (existsb _ odd_chars); [cbn [fst snd]; now rewrite app_nil_r|].
  destruct (exists_ w _) as [[|]|]; cbn [fst snd]; try now rewrite app_nil_r.
  destruct (base_dir_loop w _ base_dirs) as [found|]; cbn [fst snd];
    [|now rewrite app_nil_r].
  destruct (negb found && _); cbn [fst snd]; [reflexivity|now rewrite app_nil_r].
Qed.

Lemma path_ref_loop_app (w : world) (matches : list string)
    (xs : list ValidationIssue) :
  path_ref_loop w matches xs
  = ((xs ++ fst (path_ref_loop w matches []))%list, snd (path_ref_loop w matches [])).
Proof.
  revert xs. induction matches as [|m rest IH]; intros xs; cbn [path_ref_loop].
  - cbn [fst snd]. now rewrite app_nil_r.
  - rewrite (check_path_ref_app w m xs).
    destruct (check_path_ref w m []) as [ys [|]]; cbn [fst snd].
    + rewrite (IH (xs ++ ys)%list), (IH ys). cbn [fst snd]. now rewrite app_assoc.
    + reflexivity.
Qed.

Lemma validate_content_app (w : world) (content : string) (xs : list ValidationIssue) :
  validate_content w content xs
  = ((xs ++ fst (validate_content w content []))%list,
     snd (validate_content w content [])).
Proof. unfold validate_content. apply path_ref_loop_app. Qed.

Lemma validate_dynamic_content_app (content : string) (xs : list ValidationIssue) :
  validate_dynamic_content content xs
  = (xs ++ validate_dynamic_content content [])%list.
Proof. unfold validate_dynamic_content. apply dynamic_loop_app. Qed.

(** ** What a run on a readable document computes *)

(** [require_frontmatter] as [validate_file] computes it. *)
Definition requires_frontmatter (path : Path) : bool :=
  contains (str path) "skills" || String.eqb (name path) "SKILL.md".

(** The issues of the five validators, each started from the empty list, in
    the order [validate_file] calls them. *)
Definition run_issues (w : world) (path : Path) (content : string)
  : list ValidationIssue :=
  let claude_type := detect_claude_type_from_content w content path in
  (snd (validate_frontmatter content [] (requires_frontmatter path))
   ++ validate_structure content claude_type []
   ++ validate_best_practices content claude_type []
   ++ fst (validate_content w content [])
   ++ validate_dynamic_content content [])%list.

Lemma validate_file_run (w : world) (file_path : string) (json_output : bool)
    (content : string) :
  read_text w (parse file_path) = Some content ->
  snd (validate_content w content []) = Done ->
  let xs := run_issues w (parse file_path) content in
  validate_file w file_path json_output =
    Returned
      (mkResult (count_level "error" xs =? 0)
                (Some (detect_claude_type_from_content w content (parse file_path)))
                (count_level "error" xs) (count_level "warning" xs)
                (count_level "info" xs) xs)
      (if count_level "error" xs =? 0 then 0 else 2).
Proof.
  intros Hr Hd. cbv zeta. unfold validate_file.
  rewrite (read_text_exists _ _ _ Hr), Hr. cbv zeta.
  fold (requires_frontmatter (parse file_path)).
  rewrite validate_content_app, Hd.
  assert (E : validate_dynamic_content content
                (validate_best_practices content
                   (detect_claude_type_from_content w content (parse file_path))
                   (validate_structure content
                      (detect_claude_type_from_content w content (parse file_path))
                      (snd (validate_frontmatter content []
                              (requires_frontmatter (parse file_path)))))
                 ++ fst (validate_content w content []))
              = run_issues w (parse file_path) content).
  { rewrite validate_dynamic_content_app, validate_best_practices_app,
      validate_structure_app.
    unfold run_issues. cbv zeta. now rewrite <- !app_assoc. }
  rewrite E. f_equal.
  destruct (count_level "error" _) eqn:Ec; reflexivity.
Qed.

(** The outcome of a run on a document that is read. *)
Lemma validate_file_read_cases (w : world) (file_path : string) (json_output : bool)
    (content : string) :
  read_text w (parse file_path) = Some content ->
  (snd (validate_content w content []) = Raises
   /\ validate_file w file_path json_output = Raised)
  \/ (snd (validate_content w content []) = Done
      /\ validate_file w file_path json_output =
           Returned
             (mkResult
                (count_level "error" (run_issues w (parse file_path) content) =? 0)
                (Some (detect_claude_type_from_content w content (parse file_path)))
                (count_level "error" (run_issues w (parse file_path) content))
                (count_level "warning" (run_issues w (parse file_path) content))
                (count_level "info" (run_issues w (parse file_path) content))
                (run_issues w (parse file_path) content))
             (if count_level "error" (run_issues w (parse file_path) content) =? 0
              then 0 else 2)).
Proof.
  intros Hr. destruct (snd (validate_content w content [])) eqn:Hd.
  - right. split; [reflexivity|].
    exact (validate_file_run w file_path json_output content Hr Hd).
  - left. split; [reflexivity|].
    destruct (validate_file_reads w file_path json_output content Hr)
      as [[_ E]|[Hd' _]]; [exact E|rewrite Hd in Hd'; discriminate].
Qed.

(** X1: when a run reads its document, either an existence check of the
    content validator raises and the run ends without a result, or the run
    returns and the issues of its result are the issues of the frontmatter,
    structure, best-practices, content and dynamic-content validators, in
    that order, each as it would be produced on its own. *)
Theorem run_issues_in_validator_order (w : world) (file_path : string)
    (json_output : bool) (content : string) :
  read_text w (parse file_path) = Some content ->
  (snd (validate_content w content []) = Raises
   /\ validate_file w file_path json_output = Raised)
  \/ (snd (validate_content w content []) = Done
      /\ exists r code,
          validate_file w file_path json_output = Returned r code
          /\ type r = Some (detect_claude_type_from_content w content (parse file_path))
          /\ issues r
             = (snd (validate_frontmatter content []
                       (requires_frontmatter (parse file_path)))
                ++ validate_structure content
                     (detect_claude_type_from_content w content (parse file_path)) []
                ++ validate_best_practices content
                     (detect_claude_type_from_content w content (parse file_path)) []
                ++ fst (validate_content w content [])
                ++ validate_dynamic_content content [])%list).
Proof.
  intros Hr.
  destruct (validate_file_read_cases w file_path json_output content Hr)
    as [H|[Hd E]]; [now left|].
  right. split; [exact Hd|]. eexists _, _. split; [exact E|]. split; reflexivity.
Qed.

Definition skill_document : string :=
  "---" ++ nl ++ "name: demo" ++ nl ++ "---" ++ nl ++ "- [ ] later".

Lemma run_issues_in_validator_order_witness :
  exists r code,
    validate_file (one_file_world "skills/demo/SKILL.md" skill_document)
      "skills/demo/SKILL.md" false = Returned r code
    /\ type r = Some "project"
    /\ List.map category (issues r) = [ "frontmatter"; "structure"; "content" ].
Proof.
  destruct (run_issues_in_validator_order
              (one_file_world "skills/demo/SKILL.md" skill_document)
              "skills/demo/SKILL.md" false skill_document eq_refl)
    as [[Hx _]|(_ & r & code & E & Ht & Hi)]; [discriminate Hx|].
  exists r, code. split; [exact E|]. split; [exact Ht|].
  rewrite Hi. reflexivity.
Defined.

(** ** Categories and levels *)

(** An issue of category [cat] whose level is one of [levels]. *)
Definition issue_of (cat : string) (levels : list string) (i : ValidationIssue) : Prop :=
  category i = cat /\ In (level i) levels.

Ltac issue_shapes :=
  repeat first [ apply Forall_nil | apply Forall_cons ];
  try (split; [reflexivity | cbn [In level]; tauto]).

Lemma validate_frontmatter_shape (content : string) (require_frontmatter : bool) :
  Forall (issue_of "frontmatter" ["error"; "warning"])
         (snd (validate_frontmatter content [] require_frontmatter)).
Proof.
  unfold validate_frontmatter.
  destruct require_frontmatter; cbn [negb snd]; [|constructor].
  destruct (startswith content "---"); cbn [negb snd]; [|unfold append; issue_shapes].
  destruct (find_closing_fence _ 1) as [e|]; [|unfold append; cbn [snd]; issue_shapes].
  cbv zeta. unfold append.
  destruct (contains _ "name:"), (contains _ "description:"),
    (contains _ "<" || contains _ ">"); cbn [negb snd List.app]; issue_shapes.
Qed.

Lemma required_loop_shape (required : list string) (content : string)
    (xs : list ValidationIssue) :
  Forall (issue_of "structure" ["warning"]) xs ->
  Forall (issue_of "structure" ["warning"]) (required_loop required content xs).
Proof.
  revert xs. induction required as [|section rest IH]; intros xs H; cbn [required_loop];
    [exact H|].
  apply IH. destruct (contains content section); cbn [negb]; [exact H|].
  unfold append. apply Forall_app. split; [exact H|]. issue_shapes.
Qed.

Lemma validate_structure_shape (content claude_type : string) :
  Forall (issue_of "structure" ["warning"]) (validate_structure content claude_type []).
Proof.
  unfold validate_structure. cbv zeta. apply required_loop_shape.
  destruct (heading_indices _ 0); unfold append, no_headings_issue; cbn [List.app];
    issue_shapes.
Qed.

Lemma validate_best_practices_shape (content claude_type : string) :
  Forall (issue_of "best_practices" ["warning"; "info"])
         (validate_best_practices content claude_type []).
Proof.
  unfold validate_best_practices. cbv zeta.
  destruct (dict_get LINE_COUNT_TARGETS claude_type (0, 500)) as [min_lines max_lines].
  unfold append.
  destruct (max_lines <? _), (bullet_loop _ false [] []); cbn [List.app]; issue_shapes.
Qed.

Lemma check_path_ref_shape (w : world) (m : string) (xs : list ValidationIssue) :
  Forall (issue_of "content" ["info"]) xs ->
  Forall (issue_of "content" ["info"]) (fst (check_path_ref w m xs)).
Proof.
  intros H. unfold check_path_ref. cbv zeta.
  destruct (existsb _ skip_patterns); [exact H|].
  destruct (existsb _ odd_chars); [exact H|].
  destruct (exists_ w _) as [[|]|]; try exact H.
  destruct (base_dir_loop w _ base_dirs) as [found|]; [|exact H].
  destruct (negb found && _); [|exact H].
  cbn [fst]. unfold append. apply Forall_app. split; [exact H|]. issue_shapes.
Qed.

Lemma path_ref_loop_shape (w : world) (matches : list string)
    (xs : list ValidationIssue) :
  Forall (issue_of "content" ["info"]) xs ->
  Forall (issue_of "content" ["info"]) (fst (path_ref_loop w matches xs)).
Proof.
  revert xs. induction matches as [|m rest IH]; intros xs H; cbn [path_ref_loop];
    [exact H|].
  pose proof (check_path_ref_shape w m xs H) as Hm.
  destruct (check_path_ref w m xs) as [xs' [|]]; cbn [fst] in *.
  - now apply IH.
  - exact Hm.
Qed.

Lemma validate_content_shape (w : world) (content : string) :
  Forall (issue_of "content" ["info"]) (fst (validate_content w content [])).
Proof. unfold validate_content. apply path_ref_loop_shape. constructor. Qed.

Lemma dynamic_loop_shape (lines : list string) (i : nat) (in_code : option bool)
    (xs : list ValidationIssue) :
  Forall (issue_of "content" ["warning"]) xs ->
  Forall (issue_of "content" ["warning"]) (dynamic_loop lines i in_code xs).
Proof.
  revert i in_code xs.
  induction lines as [|line rest IH]; intros i in_code xs H; cbn [dynamic_loop];
    [exact H|].
  destruct (startswith (strip line) "```"); [now apply IH|].
  destruct (match in_code with Some b => b | None => false end); [now apply IH|].
  apply IH.
  destruct (pattern_loop_cases dynamic_patterns line i xs) as [[_ E]|[_ [msg E]]];
    rewrite E; [exact H|].
  apply Forall_app. split; [exact H|]. unfold dynamic_issue. issue_shapes.
Qed.

Lemma validate_dynamic_content_shape (content : string) :
  Forall (issue_of "content" ["warning"]) (validate_dynamic_content content []).
Proof. unfold validate_dynamic_content. apply dynamic_loop_shape. constructor. Qed.

Definition categories : list string :=
  [ "frontmatter"; "structure"; "best_practices"; "content"; "file" ].

Definition levels : list string := [ "error"; "warning"; "info" ].

Definition well_formed_issue (i : ValidationIssue) : Prop :=
  In (category i) categories /\ In (level i) levels.

Lemma issue_of_well_formed (cat : string) (ls : list string) (xs : list ValidationIssue) :
  In cat categories -> incl ls levels ->
  Forall (issue_of cat ls) xs -> Forall well_formed_issue xs.
Proof.
  intros Hc Hl H. eapply Forall_impl; [|exact H].
  intros i [Hi Hv]. split; [now rewrite Hi|now apply Hl].
Qed.

Lemma run_issues_well_formed (w : world) (path : Path) (content : string) :
  Forall well_formed_issue (run_issues w path content).
Proof.
  unfold run_issues. cbv zeta. repeat (apply Forall_app; split).
  - eapply issue_of_well_formed; [| |apply validate_frontmatter_shape];
      [cbn; tauto|intros x; cbn; tauto].
  - eapply issue_of_well_formed; [| |apply validate_structure_shape];
      [cbn; tauto|intros x; cbn; tauto].
  - eapply issue_of_well_formed; [| |apply validate_best_practices_shape];
      [cbn; tauto|intros x; cbn; tauto].
  - eapply issue_of_well_formed; [| |apply validate_content_shape];
      [cbn; tauto|intros x; cbn; tauto].
  - eapply issue_of_well_formed; [| |apply validate_dynamic_content_shape];
      [cbn; tauto|intros x; cbn; tauto].
Qed.

Lemma count_level_app (l : string) (xs ys : list ValidationIssue) :
  count_level l (xs ++ ys) = count_level l xs + count_level l ys.
Proof. unfold count_level. now rewrite filter_app, length_app. Qed.

Lemma count_levels_total (xs : list ValidationIssue) :
  Forall well_formed_issue xs ->
  count_level "error" xs + count_level "warning" xs + count_level "info" xs
  = List.length xs.
Proof.
  induction 1 as [|x xs [_ Hx] _ IH]; [reflexivity|].
  change (x :: xs) with ([x] ++ xs)%list. rewrite !count_level_app, length_app.
  assert (E : count_level "error" [x] + count_level "warning" [x]
              + count_level "info" [x] = 1).
  { unfold count_level. cbn [filter].
    cbn [In levels] in Hx. destruct Hx as [<-|[<-|[<-|[]]]]; reflexivity. }
  cbn [List.length]. lia.
Qed.

(** What a run returns, whenever it returns. *)
Lemma validate_file_returned_run (w : world) (file_path : string) (json_output : bool)
    (r : result) (code : nat) :
  validate_file w file_path json_output = Returned r code ->
  (exists_ w (parse file_path) = Some false
   /\ r = not_found_result file_path /\ code = 2)
  \/ (exists content,
        read_text w (parse file_path) = Some content
        /\ snd (validate_content w content []) = Done
        /\ r = mkResult
                 (count_level "error" (run_issues w (parse file_path) content) =? 0)
                 (Some (detect_claude_type_from_content w content (parse file_path)))
                 (count_level "error" (run_issues w (parse file_path) content))
                 (count_level "warning" (run_issues w (parse file_path) content))
                 (count_level "info" (run_issues w (parse file_path) content))
                 (run_issues w (parse file_path) content)
        /\ code = (if count_level "error" (run_issues w (parse file_path) content) =? 0
                   then 0 else 2)).
Proof.
  intros E. destruct (exists_ w (parse file_path)) as [[|]|] eqn:He.
  - destruct (read_text w (parse file_path)) as [content|] eqn:Hr.
    + destruct (validate_file_read_cases w file_path json_output content Hr)
        as [[_ E']|[Hd E']]; rewrite E' in E; [discriminate|].
      injection E as <- <-. right. exists content. repeat split. exact Hd.
    + rewrite (validate_file_unreadable _ _ _ He Hr) in E. discriminate.
  - rewrite (validate_file_missing _ _ _ He) in E. injection E as <- <-.
    left. repeat split.
  - rewrite (validate_file_inaccessible _ _ _ He) in E. discriminate.
Qed.

(** X2: in every result a run returns, each issue has one of the five
    categories and one of the three levels, and the three counts add up to
    the number of issues. *)
Theorem result_counts_add_up (w : world) (file_path : string) (json_output : bool)
    (r : result) (code : nat) :
  validate_file w file_path json_output = Returned r code ->
  Forall well_formed_issue (issues r)
  /\ errors r = count_level "error" (issues r)
  /\ warnings r = count_level "warning" (issues r)
  /\ info r = count_level "info" (issues r)
  /\ errors r + warnings r + info r = List.length (issues r).
Proof.
  intros E.
  apply validate_file_returned_run in E
    as [(_ & -> & _)|(content & _ & _ & -> & _)].
  - cbn [issues errors warnings info not_found_result]. repeat split; try reflexivity.
    constructor; [|constructor]. split; cbn; tauto.
  - cbn [issues errors warnings info].
    pose proof (run_issues_well_formed w (parse file_path) content) as H.
    repeat split; try reflexivity; [exact H|]. now apply count_levels_total.
Qed.

Lemma result_counts_add_up_witness :
  exists r code,
    validate_file (one_file_world "skills/demo/SKILL.md" skill_document)
      "skills/demo/SKILL.md" false = Returned r code
    /\ errors r + warnings r + info r = List.length (issues r)
    /\ List.length (issues r) = 3.
Proof.
  eexists _, _. split; [reflexivity|]. split; [|reflexivity].
  apply (result_counts_add_up (one_file_world "skills/demo/SKILL.md" skill_document)
           "skills/demo/SKILL.md" false _ _ eq_refl).
Defined.

(** ** Where errors come from *)

Lemma issue_of_no_error (cat : string) (ls : list string) (xs : list ValidationIssue) :
  existsb (String.eqb "error") ls = false ->
  Forall (issue_of cat ls) xs -> count_level "error" xs = 0.
Proof.
  intros Hb H.
  assert (Hn : ~ In "error" ls).
  { intros Hi. assert (Ht : existsb (String.eqb "error") ls = true).
    { apply existsb_exists. exists "error". split; [exact Hi|apply String.eqb_refl]. }
    rewrite Ht in Hb. discriminate. }
  apply count_level_zero. eapply Forall_impl; [|exact H].
  intros i [_ Hi] E. apply Hn. now rewrite <- E.
Qed.

Lemma validate_frontmatter_cases (content : string)
    (xs : list ValidationIssue) (require_frontmatter : bool) :
  exists added,
    snd (validate_frontmatter content xs require_frontmatter) = (xs ++ added)%list
    /\ ((fst (validate_frontmatter content xs require_frontmatter) = true
         /\ List.length added <= 3
         /\ Forall (fun i => level i = "warning") added)
        \/ (fst (validate_frontmatter content xs require_frontmatter) = false
            /\ require_frontmatter = true
            /\ (added = [opening_fence_issue] \/ added = [closing_fence_issue]))).
Proof.
  exists (snd (validate_frontmatter content [] require_frontmatter)).
  rewrite validate_frontmatter_app. cbn [fst snd]. split; [reflexivity|].
  unfold validate_frontmatter.
  destruct require_frontmatter; cbn [negb fst snd];
    [|left; repeat split; [cbn; lia|constructor]].
  destruct (startswith content "---"); cbn [negb fst snd];
    [|right; repeat split; left; reflexivity].
  destruct (find_closing_fence _ 1) as [e|];
    [|right; repeat split; right; reflexivity].
  left. cbv zeta. unfold append.
  destruct (contains _ "name:"), (contains _ "description:"),
    (contains _ "<" || contains _ ">"); cbn [negb fst snd List.app List.length];
    (split; [reflexivity|split; [lia|repeat constructor]]).
Qed.

(** X3: [validate_frontmatter] returns [False] exactly when it has added an
    error, and then that error is the only issue it added; when it returns
    [True] it has added at most three issues, all of them warnings. *)
Theorem validate_frontmatter_return_value (content : string)
    (xs : list ValidationIssue) (require_frontmatter : bool) :
  exists added,
    snd (validate_frontmatter content xs require_frontmatter) = (xs ++ added)%list
    /\ ((fst (validate_frontmatter content xs require_frontmatter) = true
         /\ List.length added <= 3
         /\ Forall (fun i => level i = "warning") added)
        \/ (fst (validate_frontmatter content xs require_frontmatter) = false
            /\ require_frontmatter = true
            /\ (added = [opening_fence_issue] \/ added = [closing_fence_issue]))).
Proof. apply validate_frontmatter_cases. Qed.

Lemma frontmatter_errors (content : string) (require_frontmatter : bool) :
  count_level "error" (snd (validate_frontmatter content [] require_frontmatter))
  = if fst (validate_frontmatter content [] require_frontmatter) then 0 else 1.
Proof.
  destruct (validate_frontmatter_cases content [] require_frontmatter)
    as (added & E & [(Ht & _ & Hw)|(Hf & _ & [Ha|Ha])]);
    cbn [List.app] in E; rewrite E.
  - rewrite Ht. apply count_level_zero. eapply Forall_impl; [|exact Hw].
    intros i Hi. rewrite Hi. discriminate.
  - rewrite Hf, Ha. reflexivity.
  - rewrite Hf, Ha. reflexivity.
Qed.

Lemma run_issues_errors (w : world) (path : Path) (content : string) :
  count_level "error" (run_issues w path content)
  = if fst (validate_frontmatter content [] (requires_frontmatter path)) then 0 else 1.
Proof.
  unfold run_issues. cbv zeta. rewrite !count_level_app.
  rewrite (issue_of_no_error "structure" ["warning"] _ eq_refl
             (validate_structure_shape content _)).
  rewrite (issue_of_no_error "best_practices" ["warning"; "info"] _ eq_refl
             (validate_best_practices_shape content _)).
  rewrite (issue_of_no_error "content" ["info"] _ eq_refl
             (validate_content_shape w content)).
  rewrite (issue_of_no_error "content" ["warning"] _ eq_refl
             (validate_dynamic_content_shape content)).
  rewrite frontmatter_errors. lia.
Qed.

(** X4: only the frontmatter validator can make a document invalid.
    Whenever a run that reads its document returns, the result has at most
    one error; it is valid, with return code 0, exactly when
    [validate_frontmatter] returns [True], a value [validate_file] itself
    discards; otherwise the code is 2. *)
Theorem validity_is_the_frontmatter_verdict (w : world) (file_path : string)
    (json_output : bool) (content : string) (r : result) (code : nat) :
  read_text w (parse file_path) = Some content ->
  validate_file w file_path json_output = Returned r code ->
  errors r <= 1
  /\ valid r
     = fst (validate_frontmatter content [] (requires_frontmatter (parse file_path)))
  /\ (code = 0 <-> valid r = true)
  /\ (code = 2 <-> valid r = false).
Proof.
  intros Hr E.
  destruct (validate_file_read_cases w file_path json_output content Hr)
    as [[_ E']|[_ E']]; rewrite E' in E; [discriminate|].
  injection E as <- <-.
  cbn [errors valid]. rewrite run_issues_errors.
  destruct (fst (validate_frontmatter content [] _)); cbn [Nat.eqb];
    repeat split; try lia; try reflexivity; discriminate.
Qed.

Lemma validity_is_the_frontmatter_verdict_witness :
  exists r code,
    validate_file (one_file_world "skills/demo/SKILL.md" skill_document)
      "skills/demo/SKILL.md" false = Returned r code
    /\ errors r <= 1
    /\ valid r = true
    /\ (code = 0 <-> valid r = true)
    /\ (code = 2 <-> valid r = false).
Proof.
  eexists _, _. split; [reflexivity|].
  apply (validity_is_the_frontmatter_verdict
           (one_file_world "skills/demo/SKILL.md" skill_document)
           "skills/demo/SKILL.md" false skill_document _ _ eq_refl eq_refl).
Defined.

(** X5: a document whose path does not contain "skills" and whose name is
    not SKILL.md is valid whatever its content: unless an existence check
    of the content validator raises, the run returns 0 with no error and no
    issue of category frontmatter. *)
Theorem no_frontmatter_required_always_valid (w : world) (file_path : string)
    (json_output : bool) (content : string) :
  read_text w (parse file_path) = Some content ->
  contains (str (parse file_path)) "skills" = false ->
  name (parse file_path) <> "SKILL.md" ->
  snd (validate_content w content []) = Done ->
  exists r,
    validate_file w file_path json_output = Returned r 0
    /\ valid r = true
    /\ errors r = 0
    /\ Forall (fun i => category i <> "frontmatter" /\ level i <> "error") (issues r).
Proof.
  intros Hr Hs Hn Hd.
  assert (Hq : requires_frontmatter (parse file_path) = false).
  { unfold requires_frontmatter. rewrite Hs. now apply String.eqb_neq in Hn as ->. }
  pose proof (validate_file_run w file_path json_output content Hr Hd) as E.
  cbv zeta in E. rewrite run_issues_errors in E. rewrite Hq in E.
  cbn [validate_frontmatter negb fst Nat.eqb] in E.
  eexists. split; [exact E|]. cbn [valid errors issues]. repeat split.
  unfold run_issues. cbv zeta. rewrite Hq. cbn [validate_frontmatter negb snd List.app].
  assert (L : forall cat ls xs,
             String.eqb cat "frontmatter" = false ->
             existsb (String.eqb "error") ls = false ->
             Forall (issue_of cat ls) xs ->
             Forall (fun i => category i <> "frontmatter" /\ level i <> "error") xs).
  { intros cat ls xs Hc Hl H. eapply Forall_impl; [|exact H].
    intros i [Hi Hv]. split.
    - rewrite Hi. now apply String.eqb_neq.
    - intros Ei. rewrite Ei in Hv.
      assert (Ht : existsb (String.eqb "error") ls = true).
      { apply existsb_exists. exists "error". split; [exact Hv|apply String.eqb_refl]. }
      rewrite Ht in Hl. discriminate. }
  repeat (apply Forall_app; split).
  - exact (L "structure" ["warning"] _ eq_refl eq_refl (validate_structure_shape _ _)).
  - exact (L "best_practices" ["warning"; "info"] _ eq_refl eq_refl
             (validate_best_practices_shape _ _)).
  - exact (L "content" ["info"] _ eq_refl eq_refl (validate_content_shape _ _)).
  - exact (L "content" ["warning"] _ eq_refl eq_refl (validate_dynamic_content_shape _)).
Qed.

Definition messy_document : string :=
  "----" ++ nl ++ "- [ ] todo" ++ nl ++ "| Status |" ++ nl ++ "see `src/none.py`".

Lemma no_frontmatter_required_always_valid_witness :
  exists r,
    validate_file (one_file_world "docs/CLAUDE.md" messy_document) "docs/CLAUDE.md" true
    = Returned r 0
    /\ valid r = true
    /\ errors r = 0
    /\ Forall (fun i => category i <> "frontmatter" /\ level i <> "error") (issues r).
Proof.
  apply (no_frontmatter_required_always_valid
           (one_file_world "docs/CLAUDE.md" messy_document) "docs/CLAUDE.md" true
           messy_document).
  - reflexivity.
  - reflexivity.
  - discriminate.
  - reflexivity.
Defined.

(** ** Lines *)

(** The line holds no line break. *)
Definition one_line (l : string) : bool := count_char l newline =? 0.

Lemma split_on_one (sep : ascii) (l : string) :
  count_char l sep = 0 -> split_on sep l = [l].
Proof.
  induction l as [|c l IH]; cbn [count_char split_on]; intros H; [reflexivity|].
  destruct (Ascii.eqb c sep); [discriminate|]. now rewrite IH.
Qed.

Lemma split_on_append (sep : ascii) (l rest : string) :
  count_char l sep = 0 ->
  split_on sep (l ++ String sep rest) = l :: split_on sep rest.
Proof.
  induction l as [|c l IH]; cbn [count_char split_on String.append]; intros H.
  - now rewrite Ascii.eqb_refl.
  - destruct (Ascii.eqb c sep); [discriminate|]. now rewrite IH.
Qed.

(** Splitting what was joined gives the lines back. *)
Lemma split_lines_join_lines (l : string) (ls : list string) :
  forallb one_line (l :: ls) = true ->
  split_lines (join_lines (l :: ls)) = l :: ls.
Proof.
  unfold split_lines, join_lines. revert l.
  induction ls as [|l' ls IH]; intros l H; cbn [forallb] in H;
    apply andb_true_iff in H as [Hl Hls]; apply Nat.eqb_eq in Hl.
  - now apply split_on_one.
  - cbn [join_with]. rewrite (split_on_append _ _ _ Hl). f_equal. now apply IH.
Qed.

Lemma split_lines_length (content : string) :
  List.length (split_lines content) = S (count_char content newline).
Proof.
  unfold split_lines. induction content as [|c content IH]; [reflexivity|].
  cbn [split_on count_char]. destruct (Ascii.eqb c newline).
  - cbn [List.length]. now rewrite IH.
  - destruct (split_on newline content); [discriminate IH|exact IH].
Qed.

Lemma string_append_assoc (a b c : string) : (a ++ b) ++ c = a ++ b ++ c.
Proof. induction a as [|x a IH]; cbn [String.append]; [reflexivity|now rewrite IH]. Qed.

Lemma startswith_append_l (s t x : string) :
  startswith s x = true -> startswith (s ++ t) x = true.
Proof.
  intros H. apply startswith_split in H as [post ->].
  rewrite string_append_assoc. apply startswith_append.
Qed.

Lemma startswith_join_lines (l : string) (ls : list string) (x : string) :
  startswith l x = true -> startswith (join_lines (l :: ls)) x = true.
Proof.
  intros H. unfold join_lines. destruct ls; cbn [join_with]; [exact H|].
  now apply startswith_append_l.
Qed.

(** A text that occurs in a line occurs in the joined lines. *)
Lemma contains_join_lines (ls : list string) (x : string) :
  existsb (fun l => contains l x) ls = true -> contains (join_lines ls) x = true.
Proof.
  unfold join_lines. induction ls as [|l ls IH]; cbn [existsb]; [discriminate|].
  intros H. apply orb_true_iff in H as [H|H].
  - apply contains_split in H as (pre & post & ->).
    destruct ls; cbn [join_with]; [apply contains_append|].
    rewrite !string_append_assoc. apply contains_append.
  - destruct ls as [|l' ls]; [discriminate H|]. cbn [join_with].
    apply IH in H. apply contains_split in H as (pre & post & E).
    cbn [join_with] in E. rewrite E.
    change (String newline (pre ++ x ++ post)) with ((String newline pre) ++ x ++ post).
    rewrite <- string_append_assoc. apply contains_append.
Qed.

Lemma contains_char_cons (d c : ascii) (s : string) :
  contains (String d s) (String c EmptyString)
  = Ascii.eqb c d || contains s (String c EmptyString).
Proof. cbn [contains startswith]. now rewrite andb_true_r. Qed.

Lemma contains_char_app (a b : string) (c : ascii) :
  contains (a ++ b) (String c EmptyString)
  = contains a (String c EmptyString) || contains b (String c EmptyString).
Proof.
  induction a as [|d a IH].
  - cbn [String.append]. cbn [contains startswith]. reflexivity.
  - cbn [String.append]. rewrite !contains_char_cons, IH. now rewrite orb_assoc.
Qed.

(** A character other than the line break occurs in the joined lines only
    if it occurs in one of them. *)
Lemma contains_char_join_lines (ls : list string) (c : ascii) :
  Ascii.eqb c newline = false ->
  contains (join_lines ls) (String c EmptyString)
  = existsb (fun l => contains l (String c EmptyString)) ls.
Proof.
  intros Hc. unfold join_lines. induction ls as [|l ls IH]; [reflexivity|].
  cbn [existsb]. destruct ls as [|l' ls].
  - cbn [join_with existsb]. now rewrite orb_false_r.
  - cbn [join_with] in *. rewrite contains_char_app, contains_char_cons, Hc, IH.
    reflexivity.
Qed.

(** ** Frontmatter blocks *)

(** The warnings about the text between the fences. *)
Definition block_warnings (frontmatter : string) : list ValidationIssue :=
  ((if contains frontmatter "name:" then []
    else [mkIssue "frontmatter" "warning" "Missing 'name' field in frontmatter"
                  (Some "frontmatter")])
   ++ (if contains frontmatter "description:" then []
       else [mkIssue "frontmatter" "warning" "Missing 'description' field in frontmatter"
                     (Some "frontmatter")])
   ++ (if contains frontmatter "<" || contains frontmatter ">"
       then [mkIssue "frontmatter" "warning"
                     "Angle brackets detected in frontmatter (use &lt; or &gt; instead)"
                     (Some "frontmatter")]
       else []))%list.

Definition not_a_fence (l : string) : bool := negb (String.eqb (strip l) "---").

Lemma find_closing_fence_first (block : list string) (closing : string)
    (body : list string) (i : nat) :
  forallb not_a_fence block = true ->
  strip closing = "---" ->
  find_closing_fence (block ++ closing :: body) i = Some (i + List.length block).
Proof.
  intros Hb Hc. revert i.
  induction block as [|l block IH]; intros i; cbn [List.app find_closing_fence].
  - rewrite Hc. cbn. f_equal. lia.
  - cbn [forallb] in Hb. apply andb_true_iff in Hb as [Hl Hb].
    unfold not_a_fence in Hl. apply negb_true_iff in Hl. rewrite Hl.
    rewrite (IH Hb). cbn [List.length]. f_equal. lia.
Qed.

(** A document made of an opening line, a block, a closing fence and a body:
    what the frontmatter validator does with it. *)
Lemma validate_frontmatter_block (first closing : string) (block body : list string)
    (xs : list ValidationIssue) :
  startswith first "---" = true ->
  strip closing = "---" ->
  forallb not_a_fence block = true ->
  forallb one_line (first :: block ++ closing :: body) = true ->
  validate_frontmatter (join_lines (first :: block ++ closing :: body)) xs true
  = (true, (xs ++ block_warnings (join_lines block))%list).
Proof.
  intros Hf Hc Hb Hl. unfold validate_frontmatter. cbn [negb].
  rewrite (startswith_join_lines _ _ _ Hf). cbn [negb].
  rewrite (split_lines_join_lines _ _ Hl). cbn [tl].
  rewrite (find_closing_fence_first _ _ _ 1 Hb Hc).
  cbn [Nat.add firstn skipn].
  rewrite firstn_app, Nat.sub_diag, firstn_all. cbn [firstn]. rewrite app_nil_r.
  cbv zeta. unfold block_warnings, append.
  destruct (contains _ "name:"), (contains _ "description:"),
    (contains _ "<" || contains _ ">"); cbn [negb List.app];
    rewrite ?app_nil_r, <- ?app_assoc; reflexivity.
Qed.

(** X6: the frontmatter validator reads the lines up to the first closing
    fence and nothing after it: two documents with the same opening line,
    block and closing fence get the same verdict and the same issues,
    whatever follows the fence. *)
Theorem frontmatter_ignores_the_body (first closing : string)
    (block body body' : list string) (xs : list ValidationIssue) :
  startswith first "---" = true ->
  strip closing = "---" ->
  forallb not_a_fence block = true ->
  forallb one_line (first :: block ++ closing :: body) = true ->
  forallb one_line body' = true ->
  validate_frontmatter (join_lines (first :: block ++ closing :: body)) xs true
  = validate_frontmatter (join_lines (first :: block ++ closing :: body')) xs true.
Proof.
  intros Hf Hc Hb Hl Hl'.
  rewrite (validate_frontmatter_block _ _ _ _ _ Hf Hc Hb Hl).
  rewrite (validate_frontmatter_block _ _ _ body' _ Hf Hc Hb); [reflexivity|].
  cbn [forallb] in *. apply andb_true_iff in Hl as [H1 H2]. rewrite H1. cbn [andb].
  rewrite forallb_app in *. apply andb_true_iff in H2 as [H2 H3]. rewrite H2.
  cbn [forallb andb] in *. apply andb_true_iff in H3 as [H3 _]. now rewrite H3.
Qed.

Lemma frontmatter_ignores_the_body_witness :
  validate_frontmatter
    (join_lines ("---" :: ["name: demo"] ++ "---" :: ["# Title"; "<b>bold</b>"])) [] true
  = validate_frontmatter
      (join_lines ("---" :: ["name: demo"] ++ "---" :: [])) [] true.
Proof.
  apply (frontmatter_ignores_the_body "---" "---" ["name: demo"]
           ["# Title"; "<b>bold</b>"] [] []); reflexivity.
Defined.

(** X7: a complete frontmatter block is accepted without any issue: when
    the document opens with a fence, some line of the block holds "name:",
    some line holds "description:", no line of the block holds an angle
    bracket and a closing fence follows, the validator returns [True] and
    adds nothing. *)
Theorem complete_frontmatter_accepted (first closing : string)
    (block body : list string) (xs : list ValidationIssue) :
  startswith first "---" = true ->
  strip closing = "---" ->
  forallb not_a_fence block = true ->
  forallb one_line (first :: block ++ closing :: body) = true ->
  existsb (fun l => contains l "name:") block = true ->
  existsb (fun l => contains l "description:") block = true ->
  existsb (fun l => contains l "<") block = false ->
  existsb (fun l => contains l ">") block = false ->
  validate_frontmatter (join_lines (first :: block ++ closing :: body)) xs true
  = (true, xs).
Proof.
  intros Hf Hc Hb Hl Hn Hd Hlt Hgt.
  rewrite (validate_frontmatter_block _ _ _ _ _ Hf Hc Hb Hl).
  unfold block_warnings.
  rewrite (contains_join_lines _ _ Hn), (contains_join_lines _ _ Hd).
  rewrite (contains_char_join_lines block "<"%char eq_refl), Hlt.
  rewrite (contains_char_join_lines block ">"%char eq_refl), Hgt.
  cbn [orb List.app]. now rewrite app_nil_r.
Qed.

Lemma complete_frontmatter_accepted_witness :
  validate_frontmatter
    (join_lines ("---" :: ["name: demo"; "description: a <skill>"] ++ "---" :: ["text"]))
    [] true
  <> (true, [])
  /\ validate_frontmatter
       (join_lines ("---" :: ["name: demo"; "description: a skill"] ++ " --- " :: ["<b>"]))
       [] true
     = (true, []).
Proof.
  split; [discriminate|].
  apply (complete_frontmatter_accepted "---" " --- "
           ["name: demo"; "description: a skill"] ["<b>"] []); reflexivity.
Defined.

(** ** Structure and size *)

Lemma required_sections_of (claude_type : string) :
  dict_get REQUIRED_SECTIONS claude_type []
  = if String.eqb claude_type "rules" then ["## Purpose"] else [].
Proof.
  unfold REQUIRED_SECTIONS. cbn [dict_get].
  destruct (String.eqb "global" claude_type) eqn:E1;
    [apply String.eqb_eq in E1; subst; reflexivity|].
  destruct (String.eqb "project" claude_type) eqn:E2;
    [apply String.eqb_eq in E2; subst; reflexivity|].
  destruct (String.eqb "local" claude_type) eqn:E3;
    [apply String.eqb_eq in E3; subst; reflexivity|].
  rewrite (String.eqb_sym "rules" claude_type).
  destruct (String.eqb claude_type "rules"); reflexivity.
Qed.

Definition missing_purpose_issue : ValidationIssue :=
  mkIssue "structure" "warning" "Missing required section: ## Purpose" (Some "sections").

(** X8: the structural validator adds at most two issues: the warning
    about headings when no line starts with "##", then, for the type
    "rules" only, the warning about the missing section when the text
    "## Purpose" occurs nowhere in the document.  Every other type, also one
    the tables do not know, has no required section. *)
Theorem validate_structure_issues (content claude_type : string)
    (xs : list ValidationIssue) :
  validate_structure content claude_type xs
  = (xs
     ++ (if existsb (fun line => startswith line "##") (split_lines content)
         then [] else [no_headings_issue])
     ++ (if String.eqb claude_type "rules" && negb (contains content "## Purpose")
         then [missing_purpose_issue] else []))%list.
Proof.
  rewrite validate_structure_app. f_equal.
  unfold validate_structure. cbv zeta. rewrite required_sections_of.
  assert (H : heading_indices (split_lines content) 0 = []
              <-> existsb (fun line => startswith line "##") (split_lines content) = false).
  { generalize 0. induction (split_lines content) as [|l ls IH]; intros i;
      cbn [heading_indices existsb]; [split; reflexivity|].
    destruct (startswith l "##"); cbn [orb]; [split; discriminate|apply IH]. }
  destruct (heading_indices (split_lines content) 0) eqn:Eh.
  - rewrite (proj1 H eq_refl).
    destruct (String.eqb claude_type "rules"); cbn [andb required_loop];
      [|reflexivity].
    destruct (contains content "## Purpose"); reflexivity.
  - destruct (existsb _ (split_lines content)) eqn:Ee;
      [|discriminate (proj2 H eq_refl)].
    destruct (String.eqb claude_type "rules"); cbn [andb required_loop];
      [|reflexivity].
    destruct (contains content "## Purpose"); reflexivity.
Qed.

(** The line count: one more than the number of line breaks. *)
Definition line_count (content : string) : nat := S (count_char content newline).

Definition line_count_issue (n min_lines max_lines : nat) : ValidationIssue :=
  mkIssue "best_practices" "warning"
    ("Line count: " ++ str_of_nat n ++ " (target: "
     ++ str_of_nat min_lines ++ "-" ++ str_of_nat max_lines
     ++ "). Consider using references/ for detailed content.")
    (Some "entire file").

(** The upper target of a type; 500 for a type the table does not list. *)
Definition max_lines_of (claude_type : string) : nat :=
  snd (dict_get LINE_COUNT_TARGETS claude_type (0, 500)).

Definition min_lines_of (claude_type : string) : nat :=
  fst (dict_get LINE_COUNT_TARGETS claude_type (0, 500)).

(** X9: the best-practices validator warns about the size exactly when
    the number of line breaks plus one exceeds the upper target of the
    type (500 for an unknown type); a document below the lower target gets
    no warning, and the only warning this validator ever adds is that one. *)
Theorem line_count_warning (content claude_type : string) :
  filter (fun i => String.eqb (level i) "warning")
         (validate_best_practices content claude_type [])
  = if max_lines_of claude_type <? line_count content
    then [line_count_issue (line_count content) (min_lines_of claude_type)
            (max_lines_of claude_type)]
    else [].
Proof.
  unfold validate_best_practices, max_lines_of, min_lines_of, line_count. cbv zeta.
  rewrite split_lines_length.
  destruct (dict_get LINE_COUNT_TARGETS claude_type (0, 500)) as [min_lines max_lines].
  cbn [fst snd]. unfold append.
  destruct (max_lines <? _), (bullet_loop _ false [] []); reflexivity.
Qed.

(** ** Bullet lists that could be tables *)

(** The sections the loop has recorded when it ends. *)
Definition bullet_sections_of (content : string) : list (list string) :=
  bullet_loop (split_lines content) false [] [].

Lemma info_issues_of_best_practices (content claude_type : string) :
  filter (fun i => String.eqb (level i) "info")
         (validate_best_practices content claude_type [])
  = match bullet_sections_of content with
    | [] => []
    | _ => [bullet_sections_issue (List.length (bullet_sections_of content))]
    end.
Proof.
  unfold validate_best_practices, bullet_sections_of. cbv zeta.
  destruct (dict_get LINE_COUNT_TARGETS claude_type (0, 500)) as [min_lines max_lines].
  unfold append.
  destruct (max_lines <? _), (bullet_loop _ false [] []); reflexivity.
Qed.

(** A recorded section: at least three lines, each a bullet line with a
    pipe. *)
Definition recorded_section (section : list string) : Prop :=
  3 <= List.length section /\ forallb bullet_line section = true.

Definition total_lines (sections : list (list string)) : nat :=
  list_sum (map (@List.length string) sections).

Lemma total_lines_app (a b : list (list string)) :
  total_lines (a ++ b) = total_lines a + total_lines b.
Proof. unfold total_lines. now rewrite map_app, list_sum_app. Qed.

Lemma bullet_loop_invariant (lines : list string) (in_code_block : bool)
    (current_section : list string) (bullet_sections : list (list string)) :
  Forall recorded_section bullet_sections ->
  forallb bullet_line current_section = true ->
  Forall recorded_section
         (bullet_loop lines in_code_block current_section bullet_sections)
  /\ total_lines (bullet_loop lines in_code_block current_section bullet_sections)
     <= total_lines bullet_sections + List.length current_section
        + List.length (filter bullet_line lines).
Proof.
  revert in_code_block current_section bullet_sections.
  induction lines as [|line rest IH]; intros b cur secs Hs Hc; cbn [bullet_loop].
  - split; [exact Hs|lia].
  - assert (Hmono : List.length (filter bullet_line rest)
                    <= List.length (filter bullet_line (line :: rest))).
    { cbn [filter]. destruct (bullet_line line); cbn [List.length]; lia. }
    destruct (startswith (strip line) "```").
    { destruct (IH (negb b) cur secs Hs Hc) as [H1 H2]. split; [exact H1|lia]. }
    destruct b.
    { destruct (IH true cur secs Hs Hc) as [H1 H2]. split; [exact H1|lia]. }
    fold (bullet_line line). destruct (bullet_line line) eqn:Hl.
    { assert (Hc' : forallb bullet_line (cur ++ [line]) = true).
      { rewrite forallb_app, Hc. cbn [forallb]. now rewrite Hl. }
      destruct (IH false (cur ++ [line])%list secs Hs Hc') as [H1 H2].
      split; [exact H1|]. rewrite length_app in H2. cbn [List.length filter] in *.
      rewrite Hl. cbn [List.length]. lia. }
    destruct cur as [|c cur].
    { destruct (IH false [] secs Hs Hc) as [H1 H2]. split; [exact H1|lia]. }
    destruct (3 <=? List.length (c :: cur)) eqn:H3.
    + apply Nat.leb_le in H3.
      assert (Hs' : Forall recorded_section (secs ++ [c :: cur])).
      { apply Forall_app. split; [exact Hs|]. constructor; [|constructor].
        split; assumption. }
      destruct (IH false [] _ Hs' eq_refl) as [H1 H2]. split; [exact H1|].
      rewrite total_lines_app in H2.
      change (total_lines [c :: cur]) with (List.length (c :: cur) + 0) in H2.
      change (@List.length string []) with 0 in H2. lia.
    + destruct (IH false [] secs Hs eq_refl) as [H1 H2]. split; [exact H1|].
      cbn [List.length] in *. lia.
Qed.

Lemma total_lines_bound (sections : list (list string)) :
  Forall recorded_section sections -> 3 * List.length sections <= total_lines sections.
Proof.
  induction 1 as [|x xs [Hx _] _ IH]; [cbn; lia|].
  change (total_lines (x :: xs)) with (List.length x + total_lines xs).
  cbn [List.length]. lia.
Qed.

(** X10: every section the best-practices validator counts has at least
    three lines, each of which starts, once stripped, with "- " and holds
    a pipe; so the number it reports is at most a third of the number of
    such lines in the document, and no info issue is added when there are
    fewer than three. *)
Theorem counted_sections_are_bullet_runs (content claude_type : string) :
  Forall recorded_section (bullet_sections_of content)
  /\ 3 * List.length (bullet_sections_of content)
     <= List.length (filter bullet_line (split_lines content))
  /\ (List.length (filter bullet_line (split_lines content)) < 3 ->
      filter (fun i => String.eqb (level i) "info")
             (validate_best_practices content claude_type []) = []).
Proof.
  destruct (bullet_loop_invariant (split_lines content) false [] []
              (Forall_nil _) eq_refl) as [H1 H2].
  fold (bullet_sections_of content) in H1, H2.
  pose proof (total_lines_bound _ H1) as H3.
  change (total_lines []) with 0 in H2. change (@List.length string []) with 0 in H2.
  split; [exact H1|]. split; [lia|].
  intros Hlt. rewrite info_issues_of_best_practices.
  destruct (bullet_sections_of content); [reflexivity|cbn [List.length] in *; lia].
Qed.

Lemma counted_sections_are_bullet_runs_witness :
  filter (fun i => String.eqb (level i) "info")
         (validate_best_practices ("- a | 1" ++ nl ++ "- b | 2" ++ nl ++ "text")
            "project" []) = [].
Proof.
  apply (proj2 (proj2 (counted_sections_are_bullet_runs
                         ("- a | 1" ++ nl ++ "- b | 2" ++ nl ++ "text") "project"))).
  vm_compute. lia.
Defined.

(** X11: bullet lines that run to the end of the document are never
    counted: appending such lines to a document leaves the info issue of the
    best-practices validator as it was. *)
Theorem trailing_bullet_lines_never_counted (first : string) (pre run : list string)
    (claude_type : string) :
  forallb bullet_line run = true ->
  forallb one_line (first :: pre ++ run) = true ->
  filter (fun i => String.eqb (level i) "info")
         (validate_best_practices (join_lines (first :: pre ++ run)) claude_type [])
  = filter (fun i => String.eqb (level i) "info")
           (validate_best_practices (join_lines (first :: pre)) claude_type []).
Proof.
  intros Hrun Hl.
  assert (Hl' : forallb one_line (first :: pre) = true).
  { cbn [forallb] in *. apply andb_true_iff in Hl as [H1 H2]. rewrite H1.
    rewrite forallb_app in H2. now apply andb_true_iff in H2 as [-> _]. }
  rewrite !info_issues_of_best_practices. unfold bullet_sections_of.
  rewrite (split_lines_join_lines _ _ Hl), (split_lines_join_lines _ _ Hl').
  change (first :: pre ++ run)%list with ((first :: pre) ++ run)%list.
  now rewrite (bullet_loop_ignores_trailing_run _ _ _ _ _ Hrun).
Qed.

Lemma trailing_bullet_lines_never_counted_witness :
  filter (fun i => String.eqb (level i) "info")
         (validate_best_practices
            (join_lines ("# Title" :: ["text"] ++ ["- a | 1"; "- b | 2"; "- c | 3"]))
            "project" [])
  = [].
Proof.
  rewrite (trailing_bullet_lines_never_counted "# Title" ["text"]
             ["- a | 1"; "- b | 2"; "- c | 3"] "project" eq_refl eq_refl).
  reflexivity.
Defined.

(** ** Path references *)

(** What the loop over the matches requires of a reference before it
    reports it: every existence check answered that nothing is there. *)
Definition reportable (w : world) (path_ref : string) : Prop :=
  skipped path_ref = false
  /\ existsb (fun c => contains path_ref c) odd_chars = false
  /\ exists_ w (parse path_ref) = Some false
  /\ Forall (fun base_dir =>
               exists_ w (joinpath (parse base_dir) (parse path_ref)) = Some false)
            base_dirs
  /\ count_char path_ref slash < 3.

Lemma base_dir_loop_not_found (w : world) (path_ref : string) (dirs : list string) :
  base_dir_loop w path_ref dirs = Some false ->
  Forall (fun base_dir =>
            exists_ w (joinpath (parse base_dir) (parse path_ref)) = Some false) dirs.
Proof.
  induction dirs as [|d dirs IH]; cbn [base_dir_loop]; intros H; [constructor|].
  destruct (exists_ w (joinpath (parse d) (parse path_ref))) as [[|]|] eqn:E;
    try discriminate.
  constructor; [exact E|now apply IH].
Qed.

Lemma check_path_ref_reports (w : world) (m : string) (xs : list ValidationIssue)
    (i : ValidationIssue) :
  In i (fst (check_path_ref w m xs)) ->
  In i xs \/ exists p, i = missing_path_issue p /\ reportable w p.
Proof.
  unfold check_path_ref, reportable. cbv zeta. fold (skipped (strip_chars "`" m)).
  destruct (skipped (strip_chars "`" m)) eqn:Es; [now left|].
  destruct (existsb _ odd_chars) eqn:Eo; [now left|].
  destruct (exists_ w (parse _)) as [[|]|] eqn:Ee; try now left.
  destruct (base_dir_loop w _ base_dirs) as [[|]|] eqn:Eb; cbn [negb andb];
    try now left.
  destruct (count_char _ slash <? 3) eqn:Ec; [|now left].
  apply Nat.ltb_lt in Ec. apply base_dir_loop_not_found in Eb.
  cbn [fst]. unfold append. rewrite in_app_iff. intros [H|[<-|[]]]; [now left|].
  right. exists (strip_chars "`" m). repeat split; assumption.
Qed.

Lemma path_ref_loop_reports (w : world) (matches : list string)
    (xs : list ValidationIssue) (i : ValidationIssue) :
  In i (fst (path_ref_loop w matches xs)) ->
  In i xs \/ exists p, i = missing_path_issue p /\ reportable w p.
Proof.
  revert xs. induction matches as [|m rest IH]; intros xs H; cbn [path_ref_loop] in H.
  - now left.
  - pose proof (check_path_ref_reports w m xs i) as Hm.
    destruct (check_path_ref w m xs) as [xs' [|]]; cbn [fst] in *.
    + destruct (IH _ H) as [H'|H']; [now apply Hm|now right].
    + now apply Hm.
Qed.

(** X12: every issue of the content validator reports a reference that
    passed all its filters: no entry of the exclusion list in it, none of
    the bracket and quote characters, fewer than three slashes, and nothing
    at that path, neither from the working directory nor from any of the
    four project directories.  So a reference that exists, or a deep one, is
    never reported.  This holds of the list as the validator leaves it,
    whether it ends normally or with the exception of an existence check. *)
Theorem reported_references_passed_the_filters (w : world) (content : string)
    (i : ValidationIssue) :
  In i (fst (validate_content w content [])) ->
  exists path_ref, i = missing_path_issue path_ref /\ reportable w path_ref.
Proof.
  unfold validate_content. cbv zeta. intros H.
  apply path_ref_loop_reports in H as [[]|H]. exact H.
Qed.

Lemma reported_references_passed_the_filters_witness :
  exists path_ref,
    missing_path_issue "docs/setup.md" = missing_path_issue path_ref
    /\ reportable empty_world path_ref.
Proof.
  apply (reported_references_passed_the_filters empty_world
           "Read `docs/setup.md`, not `a/b/c/d.md`.").
  cbn. left. reflexivity.
Defined.

(** A table row, as the first loop of the content validator sees it. *)
Definition table_row (line : string) : bool :=
  contains line "|" && startswith (strip line) "|".

Lemma prose_loop_lines (lines : list string) (in_code_block in_table : bool)
    (prose : list string) (P : string -> Prop) :
  (forall l, In l lines -> is_fence l = false -> table_row l = false -> P l) ->
  Forall P prose ->
  Forall P (prose_loop lines in_code_block in_table prose).
Proof.
  revert in_code_block in_table prose.
  induction lines as [|line rest IH]; intros b t prose HP H; cbn [prose_loop];
    [exact H|].
  assert (HP' : forall l, In l rest -> is_fence l = false -> table_row l = false -> P l)
    by (intros l Hl; apply HP; now right).
  fold (is_fence line). destruct (is_fence line) eqn:Ef; [now apply IH|].
  destruct b; [now apply IH|].
  fold (table_row line). destruct (table_row line) eqn:Et; [now apply IH|].
  destruct (t && String.eqb (strip line) EmptyString); [now apply IH|].
  destruct t; [now apply IH|].
  apply IH; [exact HP'|]. apply Forall_app. split; [exact H|].
  constructor; [|constructor]. apply HP; [now left|exact Ef|exact Et].
Qed.

Lemma prose_loop_plain (lines prose : list string) :
  forallb (fun l => negb (is_fence l) && negb (table_row l)) lines = true ->
  prose_loop lines false false prose = (prose ++ lines)%list.
Proof.
  revert prose. induction lines as [|line rest IH]; intros prose H; cbn [prose_loop].
  - now rewrite app_nil_r.
  - cbn [forallb] in H. apply andb_true_iff in H as [Hl Hr].
    apply andb_true_iff in Hl as [Hf Ht].
    apply negb_true_iff in Hf, Ht.
    fold (is_fence line). rewrite Hf. fold (table_row line). rewrite Ht.
    cbn [andb]. rewrite (IH _ Hr). now rewrite <- app_assoc.
Qed.

Lemma join_split (sep : ascii) (s : string) : join_with sep (split_on sep s) = s.
Proof.
  induction s as [|c s IH]; [reflexivity|].
  cbn [split_on]. destruct (split_on sep s) as [|l ls] eqn:Es.
  - destruct s as [|d s]; [discriminate Es|]. cbn [split_on] in Es.
    destruct (Ascii.eqb d sep); [discriminate Es|].
    destruct (split_on sep s); discriminate Es.
  - destruct (Ascii.eqb c sep) eqn:Ec.
    + apply Ascii.eqb_eq in Ec. subst c.
      change (join_with sep (EmptyString :: l :: ls))
        with (String sep (join_with sep (l :: ls))).
      now rewrite IH.
    + destruct ls as [|l' ls].
      * cbn [join_with] in *. now rewrite IH.
      * change (join_with sep (String c l :: l' :: ls))
          with (String c (l ++ String sep (join_with sep (l' :: ls)))).
        change (join_with sep (l :: l' :: ls))
          with (l ++ String sep (join_with sep (l' :: ls))) in IH.
        now rewrite IH.
Qed.

Lemma prose_lines_of_document (content : string) :
  Forall (fun l => In l (split_lines content)
                   /\ is_fence l = false /\ table_row l = false)
         (prose_loop (split_lines content) false false []).
Proof.
  apply prose_loop_lines; [|constructor]. intros l Hl Hf Ht. repeat split; assumption.
Qed.

(** X13: the text the content validator searches for references is made
    of lines of the document that are neither fences nor table rows; and a
    document without fences and table rows is searched whole. *)
Theorem prose_leaves_out_fences_and_tables (w : world) (content : string) :
  Forall (fun l => In l (split_lines content)
                   /\ is_fence l = false /\ table_row l = false)
         (prose_loop (split_lines content) false false [])
  /\ (forallb (fun l => negb (is_fence l) && negb (table_row l)) (split_lines content)
      = true ->
      validate_content w content []
      = path_ref_loop w (finditer path_pattern content) []).
Proof.
  split.
  - apply prose_lines_of_document.
  - intros H. unfold validate_content. cbv zeta. rewrite (prose_loop_plain _ [] H).
    cbn [List.app]. unfold join_lines, split_lines. now rewrite join_split.
Qed.

Lemma prose_leaves_out_fences_and_tables_witness :
  validate_content empty_world ("# Title" ++ nl ++ "see `docs/setup.md`") []
  = path_ref_loop empty_world
      (finditer path_pattern ("# Title" ++ nl ++ "see `docs/setup.md`")) [].
Proof.
  apply (proj2 (prose_leaves_out_fences_and_tables empty_world
                  ("# Title" ++ nl ++ "see `docs/setup.md`"))).
  reflexivity.
Defined.

(** ** The state of the dynamic-content loop *)

(** The loop of [validate_dynamic_content] as it would read with a flag
    bound before the loop ([in_code = False]) and toggled at each fence. *)
Fixpoint dynamic_loop_with_flag (lines : list string) (i : nat) (in_code : bool)
    (issues : list ValidationIssue) : list ValidationIssue :=
  match lines with
  | [] => issues
  | line :: rest =>
      if startswith (strip line) "```" then
        dynamic_loop_with_flag rest (S i) (negb in_code) issues
      else if in_code then dynamic_loop_with_flag rest (S i) in_code issues
      else dynamic_loop_with_flag rest (S i) in_code
             (pattern_loop dynamic_patterns line i issues)
  end.

Lemma dynamic_loop_flag (lines : list string) (i : nat) (in_code : option bool)
    (xs : list ValidationIssue) :
  dynamic_loop lines i in_code xs
  = dynamic_loop_with_flag lines i (in_code_now in_code) xs.
Proof.
  revert i in_code xs.
  induction lines as [|line rest IH]; intros i in_code xs;
    cbn [dynamic_loop dynamic_loop_with_flag]; [reflexivity|].
  fold (in_code_now in_code).
  destruct (startswith (strip line) "```").
  - rewrite IH. destruct in_code; reflexivity.
  - destruct (in_code_now in_code) eqn:E; rewrite IH, E; reflexivity.
Qed.

(** X14: the local [in_code], which the code binds only when it meets the
    first fence and tests through [locals()], behaves as a flag set to
    [False] before the loop: on every document the validator adds what the
    loop with such a flag adds. *)
Theorem unbound_in_code_is_false (content : string) (xs : list ValidationIssue) :
  validate_dynamic_content content xs
  = dynamic_loop_with_flag (split_lines content) 1 false xs.
Proof. unfold validate_dynamic_content. apply dynamic_loop_flag. Qed.

(** Line numbers that increase, starting at [lo] or later. *)
Fixpoint increasing_from (lo : nat) (ks : list nat) : Prop :=
  match ks with
  | [] => True
  | k :: ks' => lo <= k /\ increasing_from (S k) ks'
  end.

Lemma increasing_from_weaken (lo lo' : nat) (ks : list nat) :
  lo' <= lo -> increasing_from lo ks -> increasing_from lo' ks.
Proof. destruct ks as [|k ks]; cbn; [trivial|]. intros H [H1 H2]. split; [lia|exact H2]. Qed.

Lemma dynamic_loop_in_order (lines : list string) (i0 : nat) (in_code : option bool) :
  exists found : list (string * nat),
    dynamic_loop lines i0 in_code []
    = map (fun f => dynamic_issue (fst f) (snd f)) found
    /\ increasing_from i0 (map snd found)
    /\ Forall (fun f => snd f < i0 + List.length lines
                        /\ In (fst f) (map snd dynamic_patterns)) found.
Proof.
  revert i0 in_code.
  induction lines as [|line rest IH]; intros i0 in_code; cbn [dynamic_loop].
  - exists []. repeat split; constructor.
  - assert (Hskip : forall st,
              exists found : list (string * nat),
                dynamic_loop rest (S i0) st []
                = map (fun f => dynamic_issue (fst f) (snd f)) found
                /\ increasing_from i0 (map snd found)
                /\ Forall (fun f => snd f < i0 + List.length (line :: rest)
                                    /\ In (fst f) (map snd dynamic_patterns)) found).
    { intros st. destruct (IH (S i0) st) as (found & E & Hi & Hb).
      exists found. split; [exact E|]. split.
      - apply (increasing_from_weaken (S i0)); [lia|exact Hi].
      - eapply Forall_impl; [|exact Hb]. cbn [List.length]. intros f [H1 H2].
        split; [lia|exact H2]. }
    destruct (startswith (strip line) "```"); [apply Hskip|].
    destruct (match in_code with Some b => b | None => false end); [apply Hskip|].
    assert (Hp : pattern_loop dynamic_patterns line i0 [] = []
                 \/ exists msg, In msg (map snd dynamic_patterns)
                      /\ pattern_loop dynamic_patterns line i0 []
                         = [dynamic_issue msg i0]).
    { generalize dynamic_patterns as ps.
      induction ps as [|[pat msg] ps IHps]; cbn [pattern_loop]; [now left|].
      destruct (re_search pat line).
      - right. exists msg. split; [now left|reflexivity].
      - destruct IHps as [E|(m & Hm & E)]; [now left|].
        right. exists m. split; [now right|exact E]. }
    destruct Hp as [E|(msg & Hm & E)]; rewrite E; [apply Hskip|].
    rewrite dynamic_loop_app.
    destruct (IH (S i0) in_code) as (found & Ef & Hi & Hb).
    exists ((msg, i0) :: found). cbn [map fst snd List.app]. rewrite Ef.
    split; [reflexivity|]. split.
    + cbn [increasing_from]. split; [lia|exact Hi].
    + constructor.
      * cbn [fst snd List.length]. split; [lia|exact Hm].
      * eapply Forall_impl; [|exact Hb]. cbn [List.length]. intros f [H1 H2].
        split; [lia|exact H2].
Qed.

(** X15: the issues of the dynamic-content validator come in document
    order: each is a content warning carrying the message of one of the six
    patterns and located at a line number between 1 and the number of lines,
    and the line numbers strictly increase along the list; so there are at
    most as many issues as lines. *)
Theorem dynamic_issues_in_document_order (content : string) :
  exists found : list (string * nat),
    validate_dynamic_content content []
    = map (fun f => dynamic_issue (fst f) (snd f)) found
    /\ increasing_from 1 (map snd found)
    /\ Forall (fun f => 1 <= snd f <= line_count content
                        /\ In (fst f) (map snd dynamic_patterns)) found
    /\ List.length found <= line_count content.
Proof.
  unfold validate_dynamic_content, line_count.
  rewrite <- split_lines_length.
  destruct (dynamic_loop_in_order (split_lines content) 1 None) as (found & E & Hi & Hb).
  exists found. split; [exact E|]. split; [exact Hi|].
  assert (Hlo : forall lo ks, increasing_from lo ks -> Forall (fun k => lo <= k) ks).
  { intros lo ks. revert lo. induction ks as [|k ks IHk]; intros lo H; [constructor|].
    destruct H as [H1 H2]. constructor; [exact H1|].
    eapply Forall_impl; [|apply (IHk _ H2)]. cbn. intros; lia. }
  split.
  - apply Forall_forall. intros f Hf.
    pose proof (proj1 (Forall_forall _ _) Hb f Hf) as [H1 H2].
    pose proof (proj1 (Forall_forall _ _) (Hlo _ _ Hi) (snd f) (in_map snd _ _ Hf)) as H3.
    cbn beta in H3. split; [lia|exact H2].
  - assert (Hlen : forall lo hi ks,
               increasing_from lo ks -> Forall (fun k => k < hi) ks ->
               lo + List.length ks <= Nat.max lo hi).
    { intros lo hi ks. revert lo. induction ks as [|k ks IHk]; intros lo H Hh.
      - cbn. lia.
      - destruct H as [H1 H2]. inversion Hh as [|? ? Hk Hks]; subst.
        specialize (IHk _ H2 Hks). cbn [List.length]. lia. }
    assert (Hh : Forall (fun k => k < 1 + List.length (split_lines content))
                        (map snd found)).
    { apply Forall_map. eapply Forall_impl; [|exact Hb]. intros f [H1 _]. exact H1. }
    pose proof (Hlen _ _ _ Hi Hh) as H. rewrite length_map in H. lia.
Qed.

(** ** Paths *)

Lemma parse_relative (file_path : string) :
  startswith file_path "/" = false -> root (parse file_path) = EmptyString.
Proof.
  intros H. unfold parse. cbn [root].
  destruct file_path as [|c s]; [reflexivity|].
  cbn [startswith] in *. destruct (Ascii.eqb "/" c); [discriminate H|reflexivity].
Qed.

(** X16: a relative path is never classified as global.  The comparison
    is made with the path as given, not resolved, so with an absolute home
    directory only an absolute path can be the global memory file. *)
Theorem relative_path_is_never_global (w : world) (content file_path : string) :
  root (home w) <> EmptyString ->
  startswith file_path "/" = false ->
  detect_claude_type_from_content w content (parse file_path) <> "global".
Proof.
  intros Hh Hr. unfold detect_claude_type_from_content.
  assert (E : path_eqb (parse file_path)
                (joinpath (joinpath (home w) (parse ".claude")) (parse "CLAUDE.md"))
              = false).
  { destruct (path_eqb _ _) eqn:Ep; [|reflexivity].
    apply path_eqb_eq in Ep. apply (f_equal root) in Ep.
    rewrite (parse_relative _ Hr) in Ep. cbn in Ep. symmetry in Ep. contradiction. }
  rewrite E.
  destruct (contains _ ".claude/rules"); [discriminate|].
  destruct (String.eqb _ "CLAUDE.local.md"); discriminate.
Qed.

Lemma relative_path_is_never_global_witness :
  detect_claude_type_from_content empty_world EmptyString (parse ".claude/CLAUDE.md")
  <> "global".
Proof.
  apply (relative_path_is_never_global empty_world EmptyString ".claude/CLAUDE.md").
  - discriminate.
  - reflexivity.
Defined.

(** ** What the matcher finds *)

(** The strings a pattern denotes. *)
Inductive matches : regex -> string -> Prop :=
| matches_eps : matches Eps EmptyString
| matches_sym (p : ascii -> bool) (c : ascii) :
    p c = true -> matches (Sym p) (String c EmptyString)
| matches_cat (r1 r2 : regex) (a b : string) :
    matches r1 a -> matches r2 b -> matches (Cat r1 r2) (a ++ b)
| matches_alt_l (r1 r2 : regex) (a : string) :
    matches r1 a -> matches (Alt r1 r2) a
| matches_alt_r (r1 r2 : regex) (a : string) :
    matches r2 a -> matches (Alt r1 r2) a
| matches_star_nil (r : regex) : matches (Star r) EmptyString
| matches_star_app (r : regex) (a b : string) :
    matches r a -> matches (Star r) b -> matches (Star r) (a ++ b).

(** Whatever the matcher accepts is a string of the pattern followed by
    what it hands to its continuation. *)
Lemma re_match_sound {A : Type} (r : regex) :
  forall (s : string) (k : string -> option A) (x : A),
    re_match r s k = Some x ->
    exists m rest, s = m ++ rest /\ matches r m /\ k rest = Some x.
Proof.
  induction r as [|p|r1 IH1 r2 IH2|r1 IH1 r2 IH2|r IH]; intros s k x H;
    cbn [re_match] in H.
  - exists EmptyString, s. repeat split; [constructor|exact H].
  - destruct s as [|c s]; [discriminate|]. destruct (p c) eqn:Ep; [|discriminate].
    exists (String c EmptyString), s. repeat split; [now constructor|exact H].
  - apply IH1 in H as (m1 & rest1 & -> & M1 & H).
    apply IH2 in H as (m2 & rest2 & -> & M2 & H).
    exists (m1 ++ m2), rest2. rewrite string_append_assoc.
    repeat split; [now constructor|exact H].
  - destruct (re_match r1 s k) as [y|] eqn:E1.
    + injection H as ->. apply IH1 in E1 as (m & rest & -> & M & H).
      exists m, rest. repeat split; [now apply matches_alt_l|exact H].
    + apply IH2 in H as (m & rest & -> & M & H).
      exists m, rest. repeat split; [now apply matches_alt_r|exact H].
  - revert H. generalize (String.length s) as n. intros n. revert s.
    induction n as [|n IHn]; intros s H.
    + exists EmptyString, s. repeat split; [constructor|exact H].
    + destruct (re_match r s _) as [y|] eqn:E1 in H.
      * injection H as ->. apply IH in E1 as (m1 & rest1 & -> & M1 & H).
        apply IHn in H as (m2 & rest2 & -> & M2 & H).
        exists (m1 ++ m2), rest2. rewrite string_append_assoc.
        repeat split; [now apply matches_star_app|exact H].
      * exists EmptyString, s. repeat split; [constructor|exact H].
Qed.

Lemma re_search_sound (r : regex) (s : string) :
  re_search r s = true -> exists pre m post, s = pre ++ m ++ post /\ matches r m.
Proof.
  induction s as [|c s IH]; cbn [re_search]; intros H.
  - destruct (re_match r EmptyString _) as [[]|] eqn:E; [|discriminate].
    apply re_match_sound in E as (m & rest & E & M & _).
    exists EmptyString, m, rest. split; [exact E|exact M].
  - destruct (re_match r (String c s) _) as [[]|] eqn:E.
    + apply re_match_sound in E as (m & rest & E & M & _).
      exists EmptyString, m, rest. split; [exact E|exact M].
    + apply IH in H as (pre & m & post & -> & M).
      exists (String c pre), m, post. split; [reflexivity|exact M].
Qed.

Lemma string_length_append (a b : string) :
  String.length (a ++ b) = String.length a + String.length b.
Proof. induction a as [|c a IH]; cbn [String.append String.length]; [reflexivity|now rewrite IH]. Qed.

Lemma take_append (m rest : string) :
  take (String.length (m ++ rest) - String.length rest) (m ++ rest) = m.
Proof.
  rewrite string_length_append, Nat.add_sub.
  induction m as [|c m IH]; cbn [String.length take String.append].
  - destruct rest; reflexivity.
  - now rewrite IH.
Qed.

(** Every match [finditer] returns is a string of the pattern and a part of
    the text. *)
Lemma finditer_sound (r : regex) (s m : string) :
  In m (finditer r s) ->
  matches r m /\ exists pre post, s = pre ++ m ++ post.
Proof.
  unfold finditer. generalize (S (String.length s)) as fuel. intros fuel. revert s.
  induction fuel as [|fuel IH]; intros s H; cbn [finditer_fuel] in H; [destruct H|].
  assert (Hskip : In m (match s with
                        | EmptyString => []
                        | String _ s' => finditer_fuel fuel r s'
                        end) ->
                  matches r m /\ exists pre post, s = pre ++ m ++ post).
  { destruct s as [|c s]; [intros []|]. intros Hs.
    apply IH in Hs as (M & pre & post & ->). split; [exact M|].
    exists (String c pre), post. reflexivity. }
  cbv zeta in H.
  destruct (re_match r s (fun rest => Some rest)) as [rest|] eqn:E; [|now apply Hskip].
  apply re_match_sound in E as (m0 & rest0 & -> & M0 & E). injection E as ->.
  rewrite take_append in H. destruct H as [<-|H].
  - split; [exact M0|]. exists EmptyString, rest. reflexivity.
  - destruct m0 as [|c m0]; [now apply Hskip|].
    apply IH in H as (M & pre & post & ->). split; [exact M|].
    exists (String c m0 ++ pre), post. now rewrite !string_append_assoc.
Qed.

(** Every character of the string satisfies [P]. *)
Fixpoint all_chars (P : ascii -> bool) (s : string) : bool :=
  match s with
  | EmptyString => true
  | String c s' => P c && all_chars P s'
  end.

Lemma all_chars_append (P : ascii -> bool) (a b : string) :
  all_chars P (a ++ b) = all_chars P a && all_chars P b.
Proof.
  induction a as [|c a IH]; cbn [String.append all_chars]; [reflexivity|].
  now rewrite IH, andb_assoc.
Qed.

(** Every symbol of the pattern accepts only characters that satisfy [P]. *)
Fixpoint symbols_within (P : ascii -> bool) (r : regex) : Prop :=
  match r with
  | Eps => True
  | Sym p => forall c, p c = true -> P c = true
  | Cat r1 r2 | Alt r1 r2 => symbols_within P r1 /\ symbols_within P r2
  | Star r' => symbols_within P r'
  end.

Lemma matches_all_chars (P : ascii -> bool) (r : regex) (m : string) :
  symbols_within P r -> matches r m -> all_chars P m = true.
Proof.
  intros Hr M. induction M as [|p c Hp|r1 r2 a b _ IH1 _ IH2|r1 r2 a _ IH|r1 r2 a _ IH
                               |r|r a b _ IH1 _ IH2]; cbn [symbols_within] in Hr.
  - reflexivity.
  - cbn [all_chars]. now rewrite (Hr c Hp).
  - rewrite all_chars_append, (IH1 (proj1 Hr)), (IH2 (proj2 Hr)). reflexivity.
  - exact (IH (proj1 Hr)).
  - exact (IH (proj2 Hr)).
  - reflexivity.
  - rewrite all_chars_append, (IH1 Hr), (IH2 Hr). reflexivity.
Qed.

Lemma matches_cat_inv (r1 r2 : regex) (m : string) :
  matches (Cat r1 r2) m -> exists a b, m = a ++ b /\ matches r1 a /\ matches r2 b.
Proof. intros H. inversion H; subst. eauto. Qed.

Lemma matches_chr_inv (c : ascii) (m : string) :
  matches (chr c) m -> m = String c EmptyString.
Proof.
  unfold chr. intros H. inversion H as [|p d Hd| | | | |]; subst.
  apply Ascii.eqb_eq in Hd. now subst.
Qed.

(** The characters of a path reference: [[\w\-./]]. *)
Definition path_char (c : ascii) : bool :=
  isword c || Ascii.eqb c "-"%char || Ascii.eqb c "."%char || Ascii.eqb c "/"%char.

Definition backtick : ascii := "`"%char.

(** A match of [path_pattern] is a run of path characters between two
    backticks. *)
Lemma path_pattern_match (m : string) :
  matches path_pattern m ->
  exists body,
    m = String backtick (body ++ String backtick EmptyString)
    /\ all_chars path_char body = true.
Proof.
  intros H.
  apply matches_cat_inv in H as (a & m1 & -> & Ha & H).
  apply matches_chr_inv in Ha. subst a.
  apply matches_cat_inv in H as (x1 & m2 & -> & H1 & H).
  apply matches_cat_inv in H as (x2 & m3 & -> & H2 & H).
  apply matches_cat_inv in H as (x3 & x4 & -> & H3 & H4).
  apply matches_chr_inv in H4. subst x4.
  exists (x1 ++ x2 ++ x3). split.
  - cbn [String.append]. unfold backtick. now rewrite !string_append_assoc.
  - assert (W : forall c, isword c = true -> path_char c = true)
      by (intros c Hc; unfold path_char; now rewrite Hc).
    assert (E : forall d c, path_char d = true -> Ascii.eqb d c = true ->
                            path_char c = true)
      by (intros d c Hd Hc; apply Ascii.eqb_eq in Hc; now subst).
    rewrite !all_chars_append.
    match type of H1 with matches ?r _ =>
      assert (S1 : symbols_within path_char r)
    end.
    { cbn. repeat split; intros c Hc;
        first [ now apply (E "."%char) | now apply (E "/"%char)
              | unfold path_char; apply orb_true_iff in Hc as [Hc|Hc]; rewrite Hc;
                rewrite ?orb_true_r; reflexivity ]. }
    match type of H2 with matches ?r _ =>
      assert (S2 : symbols_within path_char r)
    end.
    { cbn. repeat split; intros c Hc; exact Hc. }
    match type of H3 with matches ?r _ =>
      assert (S3 : symbols_within path_char r)
    end.
    { cbn. repeat split; try exact I; intros c Hc;
        first [ now apply (E "."%char) | now apply W ]. }
    rewrite (matches_all_chars _ _ _ S1 H1), (matches_all_chars _ _ _ S2 H2),
      (matches_all_chars _ _ _ S3 H3).
    reflexivity.
Qed.

Lemma all_chars_impl (P Q : ascii -> bool) (s : string) :
  (forall c, P c = true -> Q c = true) -> all_chars P s = true -> all_chars Q s = true.
Proof.
  intros HPQ. induction s as [|c s IH]; cbn [all_chars]; [reflexivity|].
  intros H. apply andb_true_iff in H as [Hc Hs]. now rewrite (HPQ c Hc), (IH Hs).
Qed.

Lemma all_chars_count (P : ascii -> bool) (s : string) (c : ascii) :
  all_chars P s = true -> P c = false -> count_char s c = 0.
Proof.
  intros Hs Hc. induction s as [|d s IH]; cbn [all_chars count_char] in *; [reflexivity|].
  apply andb_true_iff in Hs as [Hd Hs]. rewrite (IH Hs).
  destruct (Ascii.eqb d c) eqn:E; [|reflexivity].
  apply Ascii.eqb_eq in E. subst d. rewrite Hd in Hc. discriminate.
Qed.

Lemma rstrip_by_quoted (p : ascii -> bool) (body : string) (q : ascii) :
  all_chars (fun c => negb (p c)) body = true -> p q = true ->
  rstrip_by p (body ++ String q EmptyString) = body.
Proof.
  intros Hb Hq. induction body as [|c body IH]; cbn [String.append rstrip_by].
  - now rewrite Hq.
  - cbn [all_chars] in Hb. apply andb_true_iff in Hb as [Hc Hb].
    apply negb_true_iff in Hc. rewrite (IH Hb).
    destruct body; [now rewrite Hc|reflexivity].
Qed.

Lemma strip_by_quoted (p : ascii -> bool) (body : string) (q : ascii) :
  all_chars (fun c => negb (p c)) body = true -> p q = true ->
  rstrip_by p (lstrip_by p (String q (body ++ String q EmptyString))) = body.
Proof.
  intros Hb Hq. cbn [lstrip_by]. rewrite Hq.
  destruct body as [|c body].
  - cbn [String.append lstrip_by]. now rewrite Hq.
  - pose proof Hb as Hb'. cbn [all_chars] in Hb'.
    apply andb_true_iff in Hb' as [Hc _]. apply negb_true_iff in Hc.
    cbn [String.append lstrip_by]. rewrite Hc.
    now apply (rstrip_by_quoted p (String c body) q).
Qed.

Lemma strip_chars_quoted (body : string) :
  all_chars path_char body = true ->
  strip_chars "`" (String backtick (body ++ String backtick EmptyString)) = body.
Proof.
  intros Hb. unfold strip_chars. cbv zeta. apply strip_by_quoted; [|reflexivity].
  eapply all_chars_impl; [|exact Hb]. intros c Hc. cbn [contains startswith].
  destruct (Ascii.eqb c "`") eqn:E; [|reflexivity].
  apply Ascii.eqb_eq in E. subst c. discriminate Hc.
Qed.

Lemma prefix_in_line (sep : ascii) (m post a b : string) :
  m ++ post = a ++ String sep b -> count_char m sep = 0 -> exists post', a = m ++ post'.
Proof.
  revert a. induction m as [|c m IH]; intros a E H.
  - now exists a.
  - cbn [count_char] in H. destruct (Ascii.eqb c sep) eqn:Ec; [discriminate|].
    destruct a as [|d a]; cbn [String.append] in E; injection E as -> E.
    + rewrite Ascii.eqb_refl in Ec. discriminate.
    + destruct (IH a E H) as [post' ->]. now exists post'.
Qed.

Lemma part_in_line (sep : ascii) (pre m post a b : string) :
  pre ++ m ++ post = a ++ String sep b -> count_char m sep = 0 ->
  (exists p1 p2, a = p1 ++ m ++ p2) \/ (exists p1 p2, b = p1 ++ m ++ p2).
Proof.
  revert a. induction pre as [|c pre IH]; intros a E H.
  - cbn [String.append] in E. destruct (prefix_in_line _ _ _ _ _ E H) as [post' ->].
    left. now exists EmptyString, post'.
  - destruct a as [|d a]; cbn [String.append] in E; injection E as -> E.
    + right. now exists pre, post.
    + destruct (IH a E H) as [(p1 & p2 & ->)|R]; [left|now right].
      now exists (String d p1), p2.
Qed.

(** A part of the joined lines that holds no line break lies in one line. *)
Lemma part_in_lines (ls : list string) (pre m post : string) :
  pre ++ m ++ post = join_lines ls -> count_char m newline = 0 -> m <> EmptyString ->
  exists l, In l ls /\ contains l m = true.
Proof.
  unfold join_lines. revert pre post.
  induction ls as [|l ls IH]; intros pre post E H Hm.
  - cbn [join_with] in E. destruct pre; [|discriminate].
    cbn [String.append] in E. destruct m; [contradiction|discriminate].
  - destruct ls as [|l' ls].
    + cbn [join_with] in E. exists l. split; [now left|].
      rewrite <- E. apply contains_append.
    + change (join_with newline (l :: l' :: ls))
        with (l ++ String newline (join_with newline (l' :: ls))) in E.
      destruct (part_in_line _ _ _ _ _ _ E H) as [(p1 & p2 & ->)|(p1 & p2 & E')].
      * exists (p1 ++ m ++ p2). split; [now left|apply contains_append].
      * destruct (IH _ _ (eq_sym E') H Hm) as (l0 & Hl0 & Hc).
        exists l0. split; [now right|exact Hc].
Qed.

Lemma path_ref_loop_reports_matches (w : world) (matches : list string)
    (xs : list ValidationIssue) (i : ValidationIssue) :
  In i (fst (path_ref_loop w matches xs)) ->
  In i xs
  \/ exists m, In m matches /\ i = missing_path_issue (strip_chars "`" m).
Proof.
  revert xs. induction matches as [|m rest IH]; intros xs H; cbn [path_ref_loop] in H.
  - now left.
  - assert (Hm : forall j, In j (fst (check_path_ref w m xs)) ->
                           In j xs \/ j = missing_path_issue (strip_chars "`" m)).
    { intros j. unfold check_path_ref. cbv zeta.
      destruct (existsb _ skip_patterns); [now left|].
      destruct (existsb _ odd_chars); [now left|].
      destruct (exists_ w _) as [[|]|]; try now left.
      destruct (base_dir_loop w _ base_dirs) as [found|]; [|now left].
      destruct (negb found && _); [|now left].
      cbn [fst]. unfold append. rewrite in_app_iff.
      intros [Hj|[<-|[]]]; [now left|now right]. }
    destruct (check_path_ref w m xs) as [xs' [|]]; cbn [fst] in *.
    + destruct (IH _ H) as [H'|(m' & Hm' & E)].
      * destruct (Hm _ H') as [Hx | ->]; [now left|].
        right. exists m. split; [now left|reflexivity].
      * right. exists m'. split; [now right|exact E].
    + destruct (Hm _ H) as [Hx | ->]; [now left|].
      right. exists m. split; [now left|reflexivity].
Qed.

(** X17: every reference the content validator reports is quoted in the
    document: it stands between two backticks on a line that is neither a
    fence nor a table row, and it is made of word characters, hyphens, dots
    and slashes only. *)
Theorem reported_reference_is_quoted_in_prose (w : world) (content : string)
    (i : ValidationIssue) :
  In i (fst (validate_content w content [])) ->
  exists path_ref line,
    i = missing_path_issue path_ref
    /\ all_chars path_char path_ref = true
    /\ In line (split_lines content)
    /\ is_fence line = false /\ table_row line = false
    /\ contains line (String backtick (path_ref ++ String backtick EmptyString)) = true.
Proof.
  unfold validate_content. cbv zeta. intros H.
  apply path_ref_loop_reports_matches in H as [[]|(m & Hm & ->)].
  apply finditer_sound in Hm as (M & pre & post & E).
  apply path_pattern_match in M as (body & -> & Hb).
  rewrite (strip_chars_quoted _ Hb).
  assert (Hn : count_char (String backtick (body ++ String backtick EmptyString)) newline
               = 0).
  { apply (all_chars_count (fun c => path_char c || Ascii.eqb c backtick));
      [|reflexivity].
    cbn [all_chars]. rewrite all_chars_append. cbn [all_chars].
    rewrite (all_chars_impl path_char _ body); [reflexivity| |exact Hb].
    intros c Hc. now rewrite Hc. }
  destruct (part_in_lines _ _ _ _ (eq_sym E) Hn ltac:(discriminate)) as (line & Hl & Hc).
  pose proof (prose_lines_of_document content) as Hp.
  pose proof (proj1 (Forall_forall _ _) Hp line Hl) as (H1 & H2 & H3).
  exists body, line. repeat split; assumption.
Qed.

Lemma reported_reference_is_quoted_in_prose_witness :
  exists path_ref line,
    missing_path_issue "docs/setup.md" = missing_path_issue path_ref
    /\ all_chars path_char path_ref = true
    /\ In line (split_lines ("# Title" ++ nl ++ "Read `docs/setup.md` first."))
    /\ is_fence line = false /\ table_row line = false
    /\ contains line (String backtick (path_ref ++ String backtick EmptyString)) = true.
Proof.
  apply (reported_reference_is_quoted_in_prose empty_world
           ("# Title" ++ nl ++ "Read `docs/setup.md` first.")).
  cbn. left. reflexivity.
Defined.

(** ** Lines the dynamic-content patterns cannot match *)

Definition all_ascii : list ascii := map ascii_of_nat (seq 0 256).

Lemma in_all_ascii (c : ascii) : In c all_ascii.
Proof.
  unfold all_ascii. rewrite <- (ascii_nat_embedding c).
  apply in_map, in_seq. pose proof (nat_ascii_bounded c). lia.
Qed.

(** Some character of the string satisfies [C]. *)
Fixpoint any_char (C : ascii -> bool) (s : string) : bool :=
  match s with
  | EmptyString => false
  | String c s' => C c || any_char C s'
  end.

Lemma any_char_append (C : ascii -> bool) (a b : string) :
  any_char C (a ++ b) = any_char C a || any_char C b.
Proof.
  induction a as [|c a IH]; cbn [String.append any_char]; [reflexivity|].
  now rewrite IH, orb_assoc.
Qed.

(** Every string of the pattern holds a character that satisfies [C]: some
    symbol that cannot be skipped accepts such characters only. *)
Fixpoint needs (C : ascii -> bool) (r : regex) : bool :=
  match r with
  | Eps => false
  | Sym p => forallb (fun a => implb (p a) (C a)) all_ascii
  | Cat r1 r2 => needs C r1 || needs C r2
  | Alt r1 r2 => needs C r1 && needs C r2
  | Star _ => false
  end.

Lemma matches_needs (C : ascii -> bool) (r : regex) (m : string) :
  needs C r = true -> matches r m -> any_char C m = true.
Proof.
  intros Hr M. induction M as [|p c Hp|r1 r2 a b _ IH1 _ IH2|r1 r2 a _ IH|r1 r2 a _ IH
                               |r|r a b _ IH1 _ IH2]; cbn [needs] in Hr;
    try discriminate.
  - pose proof (proj1 (forallb_forall _ _) Hr c (in_all_ascii c)) as H.
    cbn beta in H. rewrite Hp in H. cbn [implb] in H. cbn [any_char]. now rewrite H.
  - rewrite any_char_append. apply orb_true_iff in Hr as [Hr|Hr].
    + now rewrite (IH1 Hr).
    + rewrite (IH2 Hr). apply orb_true_r.
  - apply andb_true_iff in Hr as [Hr _]. exact (IH Hr).
  - apply andb_true_iff in Hr as [_ Hr]. exact (IH Hr).
Qed.

(** The characters one of which every dynamic-content pattern requires. *)
Definition marker (c : ascii) : bool :=
  Ascii.eqb c "|"%char || Ascii.eqb c "#"%char || Ascii.eqb c "["%char
  || Ascii.eqb c ":"%char.

Lemma dynamic_patterns_need_marker :
  forallb (fun pm => needs marker (fst pm)) dynamic_patterns = true.
Proof. vm_compute. reflexivity. Qed.

Lemma pattern_loop_without_marker (line : string) (i : nat) (xs : list ValidationIssue) :
  any_char marker line = false -> pattern_loop dynamic_patterns line i xs = xs.
Proof.
  intros Hl.
  destruct (pattern_loop_cases dynamic_patterns line i xs) as [[_ E]|[H _]];
    [exact E|].
  apply existsb_exists in H as ([pat msg] & Hin & Hs). cbn [fst] in Hs.
  apply re_search_sound in Hs as (pre & m & post & -> & M).
  pose proof (proj1 (forallb_forall _ _) dynamic_patterns_need_marker _ Hin) as Hn.
  cbn [fst] in Hn. pose proof (matches_needs _ _ _ Hn M) as Hm.
  rewrite !any_char_append, Hm, orb_true_r in Hl. discriminate.
Qed.

Lemma any_char_lines (C : ascii -> bool) (sep : ascii) (content : string) :
  any_char C content = false ->
  Forall (fun l => any_char C l = false) (split_on sep content).
Proof.
  induction content as [|c content IH]; cbn [any_char split_on]; intros H.
  - constructor; [reflexivity|constructor].
  - apply orb_false_iff in H as [Hc Hs]. specialize (IH Hs).
    destruct (Ascii.eqb c sep); [constructor; [reflexivity|exact IH]|].
    destruct (split_on sep content) as [|l ls].
    + constructor; [cbn [any_char]; now rewrite Hc|constructor].
    + inversion IH as [|? ? Hl Hls]; subst.
      constructor; [cbn [any_char]; now rewrite Hc, Hl|exact Hls].
Qed.

(** X18: a document that holds none of the characters "|", "#", "["
    and ":" gets no dynamic-content warning: each of the six patterns needs
    one of them. *)
Theorem plain_text_is_never_flagged (content : string) (xs : list ValidationIssue) :
  any_char marker content = false ->
  validate_dynamic_content content xs = xs.
Proof.
  intros H. unfold validate_dynamic_content.
  pose proof (any_char_lines marker newline content H) as Hl.
  fold (split_lines content) in Hl.
  generalize 1 as i, (@None bool) as st. revert Hl.
  induction (split_lines content) as [|line rest IH]; intros Hl i st;
    cbn [dynamic_loop]; [reflexivity|].
  inversion Hl as [|? ? H1 H2]; subst.
  destruct (startswith (strip line) "```"); [now apply IH|].
  destruct (match st with Some b => b | None => false end); [now apply IH|].
  rewrite (pattern_loop_without_marker _ _ _ H1). now apply IH.
Qed.

Lemma plain_text_is_never_flagged_witness :
  validate_dynamic_content ("Status pending" ++ nl ++ "todo later, phase 1 done") [] = [].
Proof.
  apply (plain_text_is_never_flagged
           ("Status pending" ++ nl ++ "todo later, phase 1 done") []).
  reflexivity.
Defined.

(** X19: a document that requires frontmatter and does not start with
    "---" is invalid: unless an existence check of the content validator
    raises, the run returns 2, with exactly one error, the missing opening
    fence, which is the first issue of the result. *)
Theorem missing_frontmatter_is_invalid (w : world) (file_path : string)
    (json_output : bool) (content : string) :
  read_text w (parse file_path) = Some content ->
  requires_frontmatter (parse file_path) = true ->
  startswith content "---" = false ->
  snd (validate_content w content []) = Done ->
  exists r,
    validate_file w file_path json_output = Returned r 2
    /\ valid r = false
    /\ errors r = 1
    /\ hd_error (issues r) = Some opening_fence_issue.
Proof.
  intros Hr Hq Hs Hd.
  pose proof (validate_file_run w file_path json_output content Hr Hd) as E.
  cbv zeta in E. rewrite run_issues_errors in E. rewrite Hq in E.
  rewrite (validate_frontmatter_no_prefix content [] Hs) in E.
  cbn [fst Nat.eqb] in E.
  eexists. split; [exact E|]. cbn [valid errors issues]. repeat split.
  unfold run_issues. cbv zeta. rewrite Hq.
  rewrite (validate_frontmatter_no_prefix content [] Hs). reflexivity.
Qed.

Lemma missing_frontmatter_is_invalid_witness :
  exists r,
    validate_file (one_file_world "skills/demo/SKILL.md" "# Demo") "skills/demo/SKILL.md"
      false = Returned r 2
    /\ valid r = false
    /\ errors r = 1
    /\ hd_error (issues r) = Some opening_fence_issue.
Proof.
  apply (missing_frontmatter_is_invalid
           (one_file_world "skills/demo/SKILL.md" "# Demo") "skills/demo/SKILL.md" false
           "# Demo"); reflexivity.
Defined.

(** ** Inline todos *)

Lemma lower_append_inv (s a b : string) :
  lower s = a ++ b -> exists s1 s2, s = s1 ++ s2 /\ lower s1 = a /\ lower s2 = b.
Proof.
  revert s. induction a as [|c a IH]; intros s H.
  - exists EmptyString, s. repeat split. exact H.
  - destruct s as [|d s]; [discriminate|]. cbn [lower String.append] in H.
    injection H as Hc Hs. destruct (IH _ Hs) as (s1 & s2 & -> & H1 & H2).
    exists (String d s1), s2. cbn [lower String.append]. now rewrite Hc, H1.
Qed.

(** A literal under [re.IGNORECASE] matches every spelling of it. *)
Lemma lit_ci_match {A : Type} (x m post : string) (k : string -> option A) :
  lower m = lower x -> re_match (lit_ci x) (m ++ post) k = k post.
Proof.
  revert m. induction x as [|c x IH]; intros m H.
  - destruct m; [reflexivity|discriminate].
  - destruct m as [|d m]; [discriminate|]. cbn [lower] in H. injection H as Hc Hm.
    cbn [lit_ci]. destruct x as [|c' x].
    + destruct m; [|discriminate]. cbn [String.append re_match chr_ci].
      now rewrite Hc, Ascii.eqb_refl.
    + cbn [String.append re_match chr_ci]. rewrite Hc, Ascii.eqb_refl.
      now apply IH.
Qed.

(** r"TO-DO:|TODO:|FIXME:" under [re.IGNORECASE] *)
Definition todo_pattern : regex := alts (map lit_ci [ "TO-DO:"; "TODO:"; "FIXME:" ]).

Lemma todo_pattern_listed :
  In (todo_pattern, "Inline todos - use task tracker instead") dynamic_patterns.
Proof. unfold dynamic_patterns. do 4 right. left. reflexivity. Qed.

(** The line holds one of the three markers, in any letter case. *)
Definition has_todo (line : string) : bool :=
  contains (lower line) "to-do:" || contains (lower line) "todo:"
  || contains (lower line) "fixme:".

Lemma todo_line_matches (line : string) :
  has_todo line = true ->
  existsb (fun pm => re_search (fst pm) line) dynamic_patterns = true.
Proof.
  intros H. apply existsb_exists.
  exists (todo_pattern, "Inline todos - use task tracker instead").
  split; [exact todo_pattern_listed|]. cbn [fst].
  assert (L : forall x, contains (lower line) x = true ->
                (forall m post, lower m = x ->
                   re_match todo_pattern (m ++ post) (fun _ => Some tt) = Some tt) ->
                re_search todo_pattern line = true).
  { intros x Hc Hm. apply contains_split in Hc as (pre & post & E).
    apply lower_append_inv in E as (s1 & s2 & -> & _ & E).
    apply lower_append_inv in E as (m & s3 & -> & E & _).
    apply re_search_append. now apply Hm. }
  unfold todo_pattern in *. cbn [map alts] in *.
  unfold has_todo in H. apply orb_true_iff in H as [H|H];
    [apply orb_true_iff in H as [H|H]|].
  - apply (L _ H). intros m post E. cbn [re_match].
    now rewrite (lit_ci_match "TO-DO:" m post _ E).
  - apply (L _ H). intros m post E. cbn [re_match].
    destruct (re_match (lit_ci "TO-DO:") _ _) as [[]|]; [reflexivity|].
    now rewrite (lit_ci_match "TODO:" m post _ E).
  - apply (L _ H). intros m post E. cbn [re_match].
    destruct (re_match (lit_ci "TO-DO:") _ _) as [[]|]; [reflexivity|].
    destruct (re_match (lit_ci "TODO:") _ _) as [[]|]; [reflexivity|].
    now rewrite (lit_ci_match "FIXME:" m post _ E).
Qed.

(** X20: a line outside fenced code blocks that holds "TODO:", "FIXME:"
    or "TO-DO:" in any letter case gets exactly one issue, a content
    warning located at the line's 1-based number. *)
Theorem todo_marker_in_any_case_is_flagged (content : string) (j : nat) (line : string) :
  nth_error (split_lines content) j = Some line ->
  inside_code_block (split_lines content) j line = false ->
  has_todo line = true ->
  exists msg,
    issues_at_line (S j) (validate_dynamic_content content [])
    = [ mkIssue "content" "warning" msg (Some ("line " ++ str_of_nat (S j))) ].
Proof.
  intros Hj Hc Ht. unfold validate_dynamic_content.
  change (S j) with (1 + j). rewrite (dynamic_loop_at _ 1 None j line Hj).
  unfold inside_code_block in Hc. cbn [in_code_now xorb].
  replace (if Nat.odd (fences_before (split_lines content) j) then true else false)
    with (Nat.odd (fences_before (split_lines content) j))
    by (destruct (Nat.odd _); reflexivity).
  rewrite Hc. apply todo_line_matches in Ht.
  destruct (pattern_loop_cases dynamic_patterns line (1 + j) []) as [[H _]|[_ [msg E]]].
  - rewrite H in Ht. discriminate.
  - rewrite E. eexists. reflexivity.
Qed.

Lemma todo_marker_in_any_case_is_flagged_witness :
  exists msg,
    issues_at_line 2 (validate_dynamic_content ("# Notes" ++ nl ++ "Fixme: later") [])
    = [ mkIssue "content" "warning" msg (Some "line 2") ].
Proof.
  apply (todo_marker_in_any_case_is_flagged ("# Notes" ++ nl ++ "Fixme: later") 1
           "Fixme: later"); reflexivity.
Defined.

End Behaviour.
